(** * Near-Earth objects and close approaches: models, loaders and writers

    A shallow embedding of [models.py], [extract.py] and [write.py].

    Python values that travel through the constructors are the scalars a
    [csv.DictReader] row or a decoded JSON cell can hold.  A [str] is the
    Rocq string of its UTF-8 bytes.  Python [float]s are IEEE binary64
    numbers, here Rocq's primitive floats.  Exceptions are an explicit result
    type; the file system and the standard output are threaded through the
    functions that touch them. *)

From Stdlib Require Import ZArith Ascii String List.
From Stdlib Require Import PrimFloat SpecFloat FloatOps.
From stdpp Require Import base option list strings gmap pretty.

#[local] Set Warnings "-register-all,-inexact-float".

Local Open Scope Z_scope.
Local Open Scope string_scope.

(** ** Python values, exceptions and results *)

Module Py.

(** The scalar values of a CSV cell ([str], or [None] for a short row), of
    a JSON cell ([str], number, [true]/[false], [null]) and of a
    serialized field. *)
Inductive value : Type :=
| VNone
| VBool (b : bool)
| VInt (z : Z)
| VFloat (f : float)
| VStr (s : string).

Inductive exn : Type :=
| KeyError (key : string)
| IndexError
| ValueError
| TypeError
| OverflowError
| AttributeError (attr : string)
| UnboundLocalError (var : string)
| FileNotFoundError (path : string).

(** A call either returns or raises. *)
Inductive result (A : Type) : Type :=
| Return (a : A)
| Raise (e : exn).
Arguments Return {A} a.
Arguments Raise {A} e.

Definition raises {A} (r : result A) : Prop :=
  match r with Return _ => False | Raise _ => True end.

#[global] Instance result_ret : MRet result := fun A a => Return a.
#[global] Instance result_bind : MBind result := fun A B f r =>
  match r with
  | Return a => f a
  | Raise e => Raise e
  end.
#[global] Instance result_fmap : FMap result := fun A B f r =>
  match r with
  | Return a => Return (f a)
  | Raise e => Raise e
  end.

(** [bool(v)]: the truth value Python's [if], [or] and conditional
    expressions test. *)
Definition truthy (v : value) : bool :=
  match v with
  | VNone => false
  | VBool b => b
  | VInt z => negb (z =? 0)%Z
  | VFloat f => negb (PrimFloat.eqb f 0%float)
  | VStr s => negb (String.eqb s "")
  end.

(** [x or y] *)
Definition or_ (x y : value) : value := if truthy x then x else y.

(** [v == s] for a string literal [s]: only an equal [str] compares
    equal. *)
Definition eq_str (v : value) (s : string) : bool :=
  match v with
  | VStr t => String.eqb t s
  | _ => false
  end.

(** [info[key]] on a keyword dictionary. *)
Definition getitem (info : gmap string value) (key : string) : result value :=
  match info !! key with
  | Some v => Return v
  | None => Raise (KeyError key)
  end.

(** [l.index(s)] for a string [s]: the first position holding an equal
    value, [ValueError] when there is none. *)
Fixpoint index (l : list value) (s : string) : result nat :=
  match l with
  | [] => Raise ValueError
  | v :: l' => if eq_str v s then Return 0%nat
               else i ← index l' s; Return (S i)
  end.

(** [item[i]] on a list, for a position [i >= 0]. *)
Definition list_getitem (item : list value) (i : nat) : result value :=
  match item !! i with
  | Some v => Return v
  | None => Raise IndexError
  end.

End Py.
Import Py.

(** ** The built-in [float()] *)

Module PyFloat.

(** A [str] is modelled by the Rocq string of its UTF-8 bytes; [decode]
    gives its code points, and fails on bytes that are no UTF-8 text. *)
Definition continuation (b : N) : option N :=
  if ((128 <=? b) && (b <=? 191))%N then Some (b - 128)%N else None.

Fixpoint decode (bytes : list N) : option (list N) :=
  match bytes with
  | [] => Some []
  | b1 :: r1 =>
      if (b1 <? 128)%N then cons b1 <$> decode r1
      else if ((194 <=? b1) && (b1 <=? 223))%N then
        match r1 with
        | b2 :: r2 =>
            c2 ← continuation b2;
            cons ((b1 - 192) * 64 + c2)%N <$> decode r2
        | _ => None
        end
      else if ((224 <=? b1) && (b1 <=? 239))%N then
        match r1 with
        | b2 :: b3 :: r3 =>
            c2 ← continuation b2; c3 ← continuation b3;
            let cp := (((b1 - 224) * 64 + c2) * 64 + c3)%N in
            if ((2048 <=? cp) && negb ((55296 <=? cp) && (cp <=? 57343)))%N
            then cons cp <$> decode r3 else None
        | _ => None
        end
      else if ((240 <=? b1) && (b1 <=? 244))%N then
        match r1 with
        | b2 :: b3 :: b4 :: r4 =>
            c2 ← continuation b2; c3 ← continuation b3; c4 ← continuation b4;
            let cp := ((((b1 - 240) * 64 + c2) * 64 + c3) * 64 + c4)%N in
            if ((65536 <=? cp) && (cp <=? 1114111))%N
            then cons cp <$> decode r4 else None
        | _ => None
        end
      else None
  end.

(** The code points above ASCII that [str.isspace] accepts. *)
Definition unicode_space (cp : N) : bool :=
  ((cp =? 133) || (cp =? 160) || (cp =? 5760) || (8192 <=? cp) && (cp <=? 8202)
   || (cp =? 8232) || (cp =? 8233) || (cp =? 8239) || (cp =? 8287) || (cp =? 12288))%N.

(** Where the decimal digits of the scripts begin, zero first, in the
    Unicode 14 database of Python 3.11; the five sets of mathematical digits
    are handled apart. *)
Definition digit_zeros : list N :=
  [ 1632; 1776; 1984; 2406; 2534; 2662; 2790; 2918; 3046; 3174; 3302; 3430;
    3558; 3664; 3792; 3872; 4160; 4240; 6112; 6160; 6470; 6608; 6784; 6800;
    6992; 7088; 7232; 7248; 42528; 43216; 43264; 43472; 43504; 43600; 44016;
    65296; 66720; 68912; 69734; 69872; 69942; 70096; 70384; 70736; 70864;
    71248; 71360; 71472; 71904; 72016; 72784; 73040; 73120; 92768; 92864;
    93008; 123200; 123632; 125264; 130032 ]%N.

Definition unicode_decimal (cp : N) : option N :=
  if ((120782 <=? cp) && (cp <=? 120831))%N then Some ((cp - 120782) mod 10)%N
  else match List.find (fun z => (z <=? cp) && (cp <=? z + 9))%N digit_zeros with
       | Some z => Some (cp - z)%N
       | None => None
       end.

(** How [float] brings a text that is not all ASCII to ASCII: spaces become
    " ", decimal digits of all scripts become "0" to "9", and the text is cut
    with "?" at the first code point that is neither. *)
Fixpoint to_ascii (cps : list N) : list N :=
  match cps with
  | [] => []
  | cp :: rest =>
      if (cp <? 127)%N then cp :: to_ascii rest
      else if unicode_space cp then 32%N :: to_ascii rest
      else match unicode_decimal cp with
           | Some d => (48 + d)%N :: to_ascii rest
           | None => [63%N]
           end
  end.

Definition transform (cps : list N) : list N :=
  if forallb (fun cp => cp <? 128)%N cps then cps else to_ascii cps.

(** The whitespace [float] strips from both ends of the ASCII text. *)
Definition is_space (c : ascii) : bool :=
  let n := N_of_ascii c in
  ((9 <=? n) && (n <=? 13) || (n =? 32))%N.

Definition digit (c : ascii) : option Z :=
  let n := N_of_ascii c in
  if ((48 <=? n) && (n <=? 57))%N then Some (Z.of_N n - 48) else None.

Definition lower (c : ascii) : ascii :=
  let n := N_of_ascii c in
  if ((65 <=? n) && (n <=? 90))%N then ascii_of_N (n + 32) else c.

Fixpoint lstrip (s : list ascii) : list ascii :=
  match s with
  | c :: s' => if is_space c then lstrip s' else s
  | [] => []
  end.

Definition strip (s : list ascii) : list ascii :=
  rev (lstrip (rev (lstrip s))).

(** What follows a digit in a digit part: [(["_"] digit)*]. *)
Fixpoint digits_tail (s : list ascii) : list Z * list ascii :=
  match s with
  | c :: s' =>
      match digit c with
      | Some d => let '(ds, r) := digits_tail s' in (d :: ds, r)
      | None =>
          if Ascii.eqb c "_" then
            match s' with
            | c' :: s'' =>
                match digit c' with
                | Some d => let '(ds, r) := digits_tail s'' in (d :: ds, r)
                | None => ([], s)
                end
            | [] => ([], s)
            end
          else ([], s)
      end
  | [] => ([], [])
  end.

(** A possibly empty digit part: [digit (["_"] digit)*] or nothing. *)
Definition digitpart (s : list ascii) : list Z * list ascii :=
  match s with
  | c :: s' =>
      match digit c with
      | Some d => let '(ds, r) := digits_tail s' in (d :: ds, r)
      | None => ([], s)
      end
  | [] => ([], [])
  end.

Definition sign (s : list ascii) : bool * list ascii :=
  match s with
  | c :: s' => if Ascii.eqb c "-" then (true, s')
               else if Ascii.eqb c "+" then (false, s')
               else (false, s)
  | [] => (false, [])
  end.

Definition number (ds : list Z) : Z := fold_left (fun n d => 10 * n + d) ds 0.

(** The exponent [("e" | "E") ["+" | "-"] digitpart], when there is one. *)
Definition exponent (s : list ascii) : option Z :=
  match s with
  | [] => Some 0
  | c :: s' =>
      if Ascii.eqb (lower c) "e" then
        let '(neg, s1) := sign s' in
        match digitpart s1 with
        | ((_ :: _) as ds, []) => Some (if neg then - number ds else number ds)
        | _ => None
        end
      else None
  end.

(** A decimal literal as a mantissa and a power of ten. *)
Definition decimal (s : list ascii) : option (Z * Z) :=
  let '(ip, s1) := digitpart s in
  let '(fp, s2) :=
    match s1 with
    | c :: s1' => if Ascii.eqb c "." then digitpart s1' else ([], s1)
    | [] => ([], [])
    end in
  match (ip ++ fp)%list with
  | [] => None
  | ds => e ← exponent s2; Some (number ds, e - Z.of_nat (length fp))
  end.

(** The binary64 number nearest to [m * 10^e] (ties to even). *)
Definition of_decimal (neg : bool) (m e : Z) : float :=
  SF2Prim
    match m with
    | Zpos p =>
        if (0 <=? e)%Z then binary_normalize prec emax (if neg then - (m * 10 ^ e) else m * 10 ^ e) 0 false
        else
          match 10 ^ (- e) with
          | Zpos q => SFdiv prec emax (S754_finite neg p 0) (S754_finite false q 0)
          | _ => S754_nan
          end
    | _ => S754_zero neg
    end.

Definition special (s : list ascii) : option float :=
  let name := string_of_list_ascii (map lower s) in
  if String.eqb name "inf" || String.eqb name "infinity" then Some infinity
  else if String.eqb name "nan" then Some nan
  else None.

(** [float] on an ASCII text: surrounding whitespace, a sign, then a
    special name or a decimal literal. *)
Definition parse (text : list ascii) : option float :=
  let '(neg, body) := sign (strip text) in
  match special body with
  | Some f => Some (if neg then (- f)%float else f)
  | None => '(m, e) ← decimal body; Some (of_decimal neg m e)
  end.

(** [float(s)] for a string: [None] is Python's [ValueError]. *)
Definition of_string (s : string) : option float :=
  cps ← decode (map N_of_ascii (list_ascii_of_string s));
  parse (map ascii_of_N (transform cps)).

(** [float(z)] for an [int]: [None] is Python's [OverflowError]. *)
Definition of_int (z : Z) : option float :=
  match binary_normalize prec emax z 0 false with
  | S754_infinity _ => None
  | sf => Some (SF2Prim sf)
  end.

End PyFloat.

(** [float(v)] *)
Definition float_ (v : value) : result float :=
  match v with
  | VNone => Raise TypeError
  | VBool b => Return (if b then 1%float else 0%float)
  | VInt z => from_option Return (Raise OverflowError) (PyFloat.of_int z)
  | VFloat f => Return f
  | VStr s => from_option Return (Raise ValueError) (PyFloat.of_string s)
  end.

(** ** Collaborators outside the modelled files *)

(** [helpers.py] is not part of the modelled sources: its two functions are
    taken as given.  [cd_to_datetime] receives the raw time field,
    [datetime_to_str] whatever [self.time] holds, [None] included. *)
Class Helpers := {
  datetime : Type;
  cd_to_datetime : value -> result datetime;
  datetime_to_str : option datetime -> result string;
}.

(** Python's own text formatting of floats: [str(f)] and [format(f, ".nf")]. *)
Class Formatting := {
  float_repr : float -> string;
  float_fixed : nat -> float -> string;
}.

(** [str(v)], as an f-string field formats a value. *)
Definition str `{Formatting} (v : value) : string :=
  match v with
  | VNone => "None"
  | VBool b => if b then "True" else "False"
  | VInt z => pretty z
  | VFloat f => float_repr f
  | VStr s => s
  end.

(** A Python [dict] with string keys, in insertion order. *)
Module Dict.
Section Dict.
Context {A : Type}.

Fixpoint get (d : list (string * A)) (key : string) : option A :=
  match d with
  | [] => None
  | (k, v) :: d' => if String.eqb k key then Some v else get d' key
  end.

(** [d[key] = v]: an existing key keeps its place. *)
Fixpoint set (d : list (string * A)) (key : string) (v : A) : list (string * A) :=
  match d with
  | [] => [(key, v)]
  | (k, w) :: d' => if String.eqb k key then (k, v) :: d' else (k, w) :: set d' key v
  end.

(** [{**d1, **d2}] *)
Definition merge (d1 d2 : list (string * A)) : list (string * A) :=
  fold_left (fun d kv => set d kv.1 kv.2) d2 d1.
End Dict.
End Dict.

(** A row as [csv.DictReader] yields it: the cells under the names of the
    header ([None] where the line stops short) and, when the line runs
    beyond the header, the remaining cells under the key [None]. *)
Record csv_row : Type := {
  cells : gmap string value;
  restkey : option (list string);
}.

Definition row_of_cells (cells : gmap string value) : csv_row :=
  {| cells := cells; restkey := None |}.

(** ** models.py *)

Module NearEarthObject.

(** [approaches] holds references to close approaches; it starts empty
    and is filled by the database constructor. *)
Record t : Type := {
  designation : value;
  name : value;
  diameter : float;
  hazardous : bool;
  approaches : list nat;
}.

(** [__init__(self, **info)], given the keywords of the call: a keyword
    [self] collides with the first parameter. *)
Definition __init__ (info : gmap string value) : result t :=
  match info !! "self" with
  | Some _ => Raise TypeError
  | None =>
      pdes ← getitem info "pdes";
      let designation := or_ pdes (VStr "") in
      name ← getitem info "name";
      let name := or_ name VNone in
      d ← getitem info "diameter";
      diameter ← (if truthy d then float_ d else Return nan);
      pha ← getitem info "pha";
      let hazardous := eq_str pha "Y" in
      Return {| designation := designation; name := name; diameter := diameter;
                hazardous := hazardous; approaches := [] |}
  end.

(** The call of the class with the row as its keywords, as [load_neos]
    makes it: the keys of the row are the keywords, and a keyword must be a
    string. *)
Definition of_row (row : csv_row) : result t :=
  match restkey row with
  | Some _ => Raise TypeError
  | None => __init__ (cells row)
  end.

Section Methods.
Context `{Formatting}.

Definition fullname (self : t) : string :=
  if truthy (name self) then
    str (designation self) +:+ " (" +:+ str (name self) +:+ ")"
  else if truthy (designation self) then
    str (designation self)
  else "(No name specified)".

Definition serialize (self : t) : list (string * value) :=
  [ ("designation", designation self);
    ("name", name self);
    ("diameter_km", VFloat (diameter self));
    ("potentially_hazardous", VBool (hazardous self)) ].
End Methods.

End NearEarthObject.

Module CloseApproach.

Section Class.
Context `{Helpers}.

(** [neo] is the reference to the linked object, [None] until the
    database constructor sets it. *)
Record t : Type := {
  _designation : value;
  time : option datetime;
  distance : float;
  velocity : float;
  neo : option NearEarthObject.t;
}.

(** [__init__(self, **info)], given the keywords of the call. *)
Definition __init__ (info : gmap string value) : result t :=
  match info !! "self" with
  | Some _ => Raise TypeError
  | None =>
      des ← getitem info "designation";
      let _designation := or_ des (VStr "") in
      tm ← getitem info "time";
      time ← (if truthy tm then Some <$> cd_to_datetime tm else Return None);
      ds ← getitem info "distance";
      distance ← (if truthy ds then float_ ds else Return 0%float);
      vl ← getitem info "velocity";
      velocity ← (if truthy vl then float_ vl else Return 0%float);
      Return {| _designation := _designation; time := time; distance := distance;
                velocity := velocity; neo := None |}
  end.

Definition time_str (self : t) : result string := datetime_to_str (time self).

(** [self.neo.attr]: attribute access on [None] raises. *)
Definition neo_attr {A} (self : t) (attr : string) (get : NearEarthObject.t -> A) : result A :=
  match neo self with
  | Some o => Return (get o)
  | None => Raise (AttributeError attr)
  end.

Definition __str__ `{Formatting} (self : t) : result string :=
  ts ← time_str self;
  fullname ← neo_attr self "fullname" NearEarthObject.fullname;
  Return ("At " +:+ ts +:+ ", '" +:+ fullname +:+ "' approaches Earth at a distance of "
          +:+ float_fixed 2 (distance self) +:+ " au and a velocity of "
          +:+ float_fixed 2 (velocity self) +:+ " km/s.").

Definition serialize (self : t) : result (list (string * value)) :=
  ts ← time_str self;
  Return [ ("datetime_utc", VStr ts);
           ("distance_au", VFloat (distance self));
           ("velocity_km_s", VFloat (velocity self)) ].
End Class.

End CloseApproach.

(** ** Files, standard output and the [csv] and [json] modules *)

(** The files by path and the lines printed so far. *)
Record World : Type := {
  files : gmap string string;
  stdout : list string;
}.

(** [open(path, "r")] *)
Definition open_r (w : World) (path : string) : result string :=
  match files w !! path with
  | Some content => Return content
  | None => Raise (FileNotFoundError path)
  end.

Definition print (line : string) (w : World) : World :=
  {| files := files w; stdout := stdout w ++ [line] |}.

(** What [open(path, "w")] and the writes up to closing leave in the file. *)
Definition written (path content : string) (w : World) : World :=
  {| files := <[path := content]> (files w); stdout := stdout w |}.

(** A decoded close-approach document: the ["fields"] array and the ["data"]
    array of rows. *)
Record cad : Type := {
  fields : list value;
  data : list (list value);
}.

(** Structured values handed to [json.dump]. *)
Inductive pyobj : Type :=
| PVal (v : value)
| PDict (d : list (string * pyobj))
| PList (l : list pyobj).

(** The parsing and printing primitives of the standard library. *)
Class Codecs := {
  csv_DictReader : string -> list csv_row;
  csv_writerow : list value -> string;
  json_load : string -> result cad;
  json_dump : pyobj -> string;
}.

(** ** extract.py *)

Section Extract.
Context `{Helpers, Codecs}.

Definition load_neos (neo_csv_path : string) (w : World)
  : result (option (list NearEarthObject.t)) * World :=
  (* try: with open(neo_csv_path, "r") as f: ... return output *)
  let opened := open_r w neo_csv_path in
  let f := match opened with Return h => Some h | Raise _ => None end in
  let body :=
    h ← opened;
    output ← mapM NearEarthObject.of_row (csv_DictReader h);
    Return (Some output) in
  (* except FileNotFoundError: print("File not found") *)
  let '(pending, w') :=
    match body with
    | Raise (FileNotFoundError _) => (Return None, print "File not found" w)
    | _ => (body, w)
    end in
  (* finally: f.close() *)
  match f with
  | Some _ => (pending, w')
  | None => (Raise (UnboundLocalError "f"), w')
  end.

(** The [lambda item: CloseApproach(...)] mapped over the data rows. *)
Definition approach_of_item (destinationIndex timeIndex distanceIndex velocityIndex : nat)
    (item : list value) : result CloseApproach.t :=
  designation ← list_getitem item destinationIndex;
  time ← list_getitem item timeIndex;
  distance ← list_getitem item distanceIndex;
  velocity ← list_getitem item velocityIndex;
  CloseApproach.__init__
    (<["designation" := designation]> (<["time" := time]>
      (<["distance" := distance]> (<["velocity" := velocity]> ∅)))).

Definition load_approaches (cad_json_path : string) (w : World)
  : result (option (list CloseApproach.t)) * World :=
  (* try: with open(cad_json_path, "r") as f: ... return list(map(...)) *)
  let opened := open_r w cad_json_path in
  let f := match opened with Return h => Some h | Raise _ => None end in
  let body :=
    h ← opened;
    jsonData ← json_load h;
    destinationIndex ← index (fields jsonData) "des";
    timeIndex ← index (fields jsonData) "cd";
    distanceIndex ← index (fields jsonData) "dist";
    velocityIndex ← index (fields jsonData) "v_rel";
    output ← mapM (approach_of_item destinationIndex timeIndex distanceIndex velocityIndex)
                   (data jsonData);
    Return (Some output) in
  (* except FileNotFoundError: print("File not found") *)
  let '(pending, w') :=
    match body with
    | Raise (FileNotFoundError _) => (Return None, print "File not found" w)
    | _ => (body, w)
    end in
  (* finally: f.close() *)
  match f with
  | Some _ => (pending, w')
  | None => (Raise (UnboundLocalError "f"), w')
  end.

End Extract.

(** ** write.py *)

Section Write.
Context `{Helpers, Codecs}.

Definition fieldnames : list string :=
  [ "datetime_utc"; "distance_au"; "velocity_km_s"; "designation"; "name";
    "diameter_km"; "potentially_hazardous" ].

(** The dictionary literal built for one row. *)
Definition csv_rowdict (row : CloseApproach.t) : result (list (string * value)) :=
  ts ← CloseApproach.time_str row;
  designation ← CloseApproach.neo_attr row "designation" NearEarthObject.designation;
  name ← CloseApproach.neo_attr row "name" NearEarthObject.name;
  diameter ← CloseApproach.neo_attr row "diameter" NearEarthObject.diameter;
  hazardous ← CloseApproach.neo_attr row "hazardous" NearEarthObject.hazardous;
  Return [ ("datetime_utc", VStr ts);
           ("distance_au", VFloat (CloseApproach.distance row));
           ("velocity_km_s", VFloat (CloseApproach.velocity row));
           ("designation", designation);
           ("name", name);
           ("diameter_km", VFloat diameter);
           ("potentially_hazardous", VBool hazardous) ].

(** [writer.writerow(rowdict)]: the cells in the order of the field names. *)
Definition DictWriter_writerow (rowdict : list (string * value)) : string :=
  csv_writerow (map (fun k => default (VStr "") (Dict.get rowdict k)) fieldnames).

(** [for row in results: writer.writerow({...})], from the text written
    so far. *)
Fixpoint write_rows (results : list CloseApproach.t) (out : string) : result () * string :=
  match results with
  | [] => (Return (), out)
  | row :: rest =>
      match csv_rowdict row with
      | Return rowdict => write_rows rest (out +:+ DictWriter_writerow rowdict)
      | Raise e => (Raise e, out)
      end
  end.

Definition write_to_csv (results : list CloseApproach.t) (filename : string) (w : World)
  : result () * World :=
  let header := csv_writerow (map VStr fieldnames) in
  let '(r, out) := write_rows results header in
  (r, written filename out w).

Definition lift (d : list (string * value)) : list (string * pyobj) :=
  map (fun kv => (kv.1, PVal kv.2)) d.

(** The body of [for result in results], appending to [output]. *)
Definition result_dict (result : CloseApproach.t) : Py.result (list (string * pyobj)) :=
  serialized_approach_dict ← CloseApproach.serialize result;
  neo ← CloseApproach.neo_attr result "serialize" NearEarthObject.serialize;
  let serialized_neo_dict := [("neo", PDict (lift neo))] in
  Return (Dict.merge (lift serialized_approach_dict) serialized_neo_dict).

Fixpoint collect (results : list CloseApproach.t) (output : list pyobj) : result (list pyobj) :=
  match results with
  | [] => Return output
  | result :: rest =>
      d ← result_dict result;
      collect rest (output ++ [PDict d])
  end.

Definition write_to_json (results : list CloseApproach.t) (filename : string) (w : World)
  : result () * World :=
  match collect results [] with
  | Return output => (Return (), written filename (json_dump (PList output)) w)
  | Raise e => (Raise e, w)
  end.

End Write.

(** ** Notions the properties are stated with *)

(** A cell that holds nothing: the empty text of a CSV cell, or [None]. *)
Definition absent (v : value) : bool :=
  match v with
  | VNone => true
  | VStr s => String.eqb s ""
  | _ => false
  end.

(** The cells a CSV row holds: text or [None]. *)
Definition is_cell (v : value) : Prop :=
  match v with
  | VNone | VStr _ => True
  | _ => False
  end.

(** The constructor's field names and the serialized names they are read
    back from. *)
Definition recognized : list (string * string) :=
  [ ("pdes", "designation"); ("name", "name"); ("diameter", "diameter_km");
    ("pha", "potentially_hazardous") ].

(** The round trip of the specification: the serialized fields handed back
    to the constructor under the names it reads. *)
Definition reread (d : list (string * value)) : gmap string value :=
  foldr (fun kf info =>
           match Dict.get d kf.2 with
           | Some v => <[kf.1 := v]> info
           | None => info
           end) ∅ recognized.

Definition roundtrip (o : NearEarthObject.t) : result NearEarthObject.t :=
  NearEarthObject.__init__ (reread (NearEarthObject.serialize o)).

Section Entries.
Context `{Helpers}.


(** A linked approach whose time formats. *)
Definition writable (a : CloseApproach.t) : Prop :=
  is_Some (CloseApproach.neo a) /\ exists ts, CloseApproach.time_str a = Return ts.

End Entries.

(** ** Sample collaborators, for running the model on concrete inputs *)

Module Sample.

(** Dates kept as their text. *)
Definition helpers : Helpers := {|
  datetime := string;
  cd_to_datetime v := match v with VStr s => Return s | _ => Raise TypeError end;
  datetime_to_str t := match t with Some s => Return s | None => Raise TypeError end;
|}.

Definition formatting : Formatting := {|
  float_repr f := "<float>";
  float_fixed n f := "<float>";
|}.

Definition eros_approach : cad := {|
  fields := [VStr "des"; VStr "cd"; VStr "dist"; VStr "v_rel"];
  data := [[VStr "433"; VStr "1900-Jan-01 00:00"; VStr "0.0921"; VStr "5.58"]];
|}.

(** Every CSV file has no rows, every JSON file is [eros_approach]. *)
Definition codecs : Codecs := {|
  csv_DictReader s := [];
  csv_writerow r := "<row>";
  json_load s := Return eros_approach;
  json_dump o := "<json>";
|}.

Definition empty_world : World := {| files := ∅; stdout := [] |}.

Definition eros_row (pha : string) : gmap string value :=
  <["pdes" := VStr "433"]> (<["name" := VStr "Eros"]>
    (<["diameter" := VStr "16.84"]> (<["pha" := VStr pha]> ∅))).

Definition eros : NearEarthObject.t :=
  {| NearEarthObject.designation := VStr "433"; NearEarthObject.name := VStr "Eros";
     NearEarthObject.diameter := 16.84%float; NearEarthObject.hazardous := false;
     NearEarthObject.approaches := [0%nat] |}.

Definition linked : @CloseApproach.t helpers :=
  @CloseApproach.Build_t helpers (VStr "433") (Some "1900-01-01 00:00")
    0.0921%float 5.58%float (Some eros).

(** The same approach as the constructor leaves it, before linking. *)
Definition unlinked : @CloseApproach.t helpers :=
  @CloseApproach.Build_t helpers (VStr "433") (Some "1900-01-01 00:00")
    0.0921%float 5.58%float None.

End Sample.

(** ** Notions and samples for the further properties *)

Section Rows.
Context `{Helpers, Codecs}.

(** The cells of the CSV row of a linked approach, in column order. *)
Definition csv_cells (datetime_utc : string) (a : CloseApproach.t)
    (o : NearEarthObject.t) : list value :=
  [ VStr datetime_utc; VFloat (CloseApproach.distance a);
    VFloat (CloseApproach.velocity a); NearEarthObject.designation o;
    NearEarthObject.name o; VFloat (NearEarthObject.diameter o);
    VBool (NearEarthObject.hazardous o) ].

(** The text of a CSV file: the header line, then one line per row. *)
Definition csv_text (rows : list (list value)) : string :=
  fold_left (fun text cells => text +:+ csv_writerow cells) rows
            (csv_writerow (map VStr fieldnames)).

End Rows.

Module Fixture.

(** A catalog whose second row has a diameter that is no number. *)
Definition bad_row : gmap string value :=
  <["diameter" := VStr "wide"]> (Sample.eros_row "N").

(** A document without the "dist" column, and one whose row stops short. *)
Definition no_dist : cad := {|
  fields := [VStr "des"; VStr "cd"; VStr "v_rel"];
  data := [[VStr "433"; VStr "1900-Jan-01 00:00"; VStr "5.58"]];
|}.

Definition short_row : cad := {|
  fields := [VStr "des"; VStr "cd"; VStr "dist"; VStr "v_rel"];
  data := [[VStr "433"; VStr "1900-Jan-01 00:00"; VStr "0.0921"]];
|}.

(** The Eros document with its columns in another order and one more. *)
Definition reordered : cad := {|
  fields := [VStr "v_rel"; VStr "orbit_id"; VStr "dist"; VStr "des"; VStr "cd"];
  data := [[VStr "5.58"; VStr "659"; VStr "0.0921"; VStr "433"; VStr "1900-Jan-01 00:00"]];
|}.

(** Files are decoded by what they hold: the text names the sample. *)
Definition codecs : Codecs := {|
  csv_DictReader s :=
    row_of_cells <$>
      (if String.eqb s "bad" then [Sample.eros_row "N"; bad_row; Sample.eros_row "Y"]
       else [Sample.eros_row "N"; Sample.eros_row "Y"]);
  csv_writerow r := "<" +:+ pretty (length r) +:+ " cells>";
  json_load s :=
    if String.eqb s "no_dist" then Return no_dist
    else if String.eqb s "short_row" then Return short_row
    else if String.eqb s "reordered" then Return reordered
    else if String.eqb s "" then Raise ValueError
    else Return Sample.eros_approach;
  json_dump o := "<json>";
|}.

Definition disk : World := {|
  files := <["neos.csv" := "ok"]> (<["bad.csv" := "bad"]> (<["cad.json" := "eros"]>
             (<["no_dist.json" := "no_dist"]> (<["short_row.json" := "short_row"]>
               (<["reordered.json" := "reordered"]> (<["empty.json" := ""]> ∅))))));
  stdout := [];
|}.

End Fixture.

(** ** Notions and samples for the statements about the writers *)

Section Linked.
Context `{Helpers}.

(** The approach [a] is linked to the object [o] and [datetime_to_str]
    formats its time as [ts]. *)
Definition formats_linked (a : CloseApproach.t) (ts : string) (o : NearEarthObject.t)
    : Prop :=
  datetime_to_str (CloseApproach.time a) = Return ts /\ CloseApproach.neo a = Some o.

End Linked.

Module Render.

(** Two objects and an approach of each. *)
Definition eros : NearEarthObject.t :=
  {| NearEarthObject.designation := VStr "433"; NearEarthObject.name := VStr "Eros";
     NearEarthObject.diameter := 16.75%float; NearEarthObject.hazardous := false;
     NearEarthObject.approaches := [0%nat] |}.

Definition apophis : NearEarthObject.t :=
  {| NearEarthObject.designation := VStr "99942"; NearEarthObject.name := VNone;
     NearEarthObject.diameter := nan; NearEarthObject.hazardous := true;
     NearEarthObject.approaches := [1%nat] |}.

Definition first : @CloseApproach.t Sample.helpers :=
  @CloseApproach.Build_t Sample.helpers (VStr "433") (Some "1900-01-01 00:00")
    0.125%float 5.5%float (Some eros).

Definition second : @CloseApproach.t Sample.helpers :=
  @CloseApproach.Build_t Sample.helpers (VStr "99942") (Some "2029-04-13 21:46")
    0.25%float 7.5%float (Some apophis).

(** Texts that show every cell, so that outputs can be told apart; a float
    is shown as its odd mantissa and binary exponent. *)
Fixpoint odd_part (m : positive) (e : Z) : positive * Z :=
  match m with
  | xO m' => odd_part m' (e + 1)
  | _ => (m, e)
  end.

Definition float_text (f : float) : string :=
  match Prim2SF f with
  | S754_zero _ => "0"
  | S754_infinity _ => "inf"
  | S754_nan => "nan"
  | S754_finite neg m e =>
      let '(m', e') := odd_part m e in
      (if neg then "-" else "") +:+ pretty (Zpos m') +:+ "p" +:+ pretty e'
  end.

Definition cell (v : value) : string :=
  match v with
  | VNone => ""
  | VBool b => if b then "True" else "False"
  | VInt z => pretty z
  | VFloat f => float_text f
  | VStr s => s
  end.

Definition line (r : list value) : string :=
  fold_right (fun v text => cell v +:+ "," +:+ text) ";" r.

Fixpoint json (o : pyobj) : string :=
  match o with
  | PVal v => cell v
  | PDict d =>
      "{" +:+ (fix members (d : list (string * pyobj)) : string :=
                 match d with
                 | [] => "}"
                 | kv :: d' => kv.1 +:+ "=" +:+ json kv.2 +:+ "," +:+ members d'
                 end) d
  | PList l =>
      "[" +:+ (fix items (l : list pyobj) : string :=
                 match l with
                 | [] => "]"
                 | x :: l' => json x +:+ "," +:+ items l'
                 end) l
  end.

Definition codecs : Codecs := {|
  csv_DictReader s := [];
  csv_writerow := line;
  json_load s := Raise ValueError;
  json_dump := json;
|}.

End Render.

(** Texts with characters that do not show in print, as UTF-8. *)
Module Text.

(** U+00A0, the no-break space, and U+3000, the ideographic space. *)
Definition nbsp : string := String (ascii_of_N 194) (String (ascii_of_N 160) "").
Definition wide_space : string :=
  String (ascii_of_N 227) (String (ascii_of_N 128) (String (ascii_of_N 128) "")).

(** The ASCII control character 0x1C. *)
Definition file_separator : string := String (ascii_of_N 28) "".

End Text.

(** * Properties *)

(** ** [float()] on sample texts *)

Example float_of_decimal_text :
  PyFloat.of_string "16.84" = Some 16.84%float /\
  PyFloat.of_string "0.0921" = Some 0.0921%float /\
  PyFloat.of_string " -1_0.5e-3 " = Some (-0.0105)%float /\
  PyFloat.of_string "9007199254740993" = Some 9007199254740992%float /\
  PyFloat.of_string "1e400" = Some infinity /\
  PyFloat.of_string "-0" = Some (-0)%float /\
  PyFloat.of_string "NaN" = Some nan.
Proof. repeat split; reflexivity. Qed.

Example float_rejects_text :
  PyFloat.of_string "abc" = None /\ PyFloat.of_string "" = None /\
  PyFloat.of_string "1_" = None /\ PyFloat.of_string "1e" = None /\
  PyFloat.of_string "." = None /\ PyFloat.of_string "16,84" = None.
Proof. repeat split; reflexivity. Qed.

(** Texts that are not all ASCII: spaces and decimal digits of other
    scripts are read, while the ASCII control character 0x1C, a space for
    [str.isspace], is not stripped. *)
Example float_of_unicode_text :
  PyFloat.of_string ("1" +:+ Text.nbsp) = Some 1%float /\
  PyFloat.of_string "١٢" = Some 12%float /\
  PyFloat.of_string (Text.nbsp +:+ "١_٢e١" +:+ Text.wide_space) = Some 120%float /\
  PyFloat.of_string (Text.file_separator +:+ "1") = None /\
  PyFloat.of_string ("1" +:+ Text.nbsp +:+ "1") = None /\
  PyFloat.of_string "²" = None.
Proof. repeat split; reflexivity. Qed.

(** ** Loading from a path that names no file *)

Section LoadMissing.
Context `{Helpers, Codecs}.

(** C1: when the path names no file, [load_neos] and [load_approaches]
    print "File not found" and then the [finally] clause reads the local
    [f] that [open] never bound: the call raises [UnboundLocalError] to
    its caller instead of completing. *)
Theorem load_missing_file_raises (path : string) (w : World) :
  files w !! path = None ->
  load_neos path w = (Raise (UnboundLocalError "f"), print "File not found" w) /\
  load_approaches path w = (Raise (UnboundLocalError "f"), print "File not found" w).
Proof.
  intros Hnone. unfold load_neos, load_approaches, open_r.
  rewrite Hnone. split; reflexivity.
Qed.

End LoadMissing.

Lemma load_missing_file_raises_witness :
  files Sample.empty_world !! "neos.csv" = None /\
  @load_neos Sample.codecs "neos.csv" Sample.empty_world
    = (Raise (UnboundLocalError "f"), print "File not found" Sample.empty_world) /\
  @load_approaches Sample.helpers Sample.codecs "neos.csv" Sample.empty_world
    = (Raise (UnboundLocalError "f"), print "File not found" Sample.empty_world).
Proof.
  split; [reflexivity |].
  apply (@load_missing_file_raises Sample.helpers Sample.codecs "neos.csv" Sample.empty_world).
  reflexivity.
Defined.

(** ** Constructing records *)

Lemma absent_falsy v : absent v = true -> truthy v = false.
Proof. destruct v; simpl; try discriminate; [done | by intros ->]. Qed.

Lemma cell_truthy v : is_cell v -> truthy v = negb (absent v).
Proof. by destruct v. Qed.


Lemma getitem_Some info key v : info !! key = Some v -> getitem info key = Return v.
Proof. unfold getitem. by intros ->. Qed.

Lemma getitem_Return info key v : getitem info key = Return v -> info !! key = Some v.
Proof. unfold getitem. destruct (info !! key); [congruence | discriminate]. Qed.

Lemma bind_Return {A B} (f : A -> result B) (r : result A) (b : B) :
  r ≫= f = Return b -> exists a, r = Return a /\ f a = Return b.
Proof. destruct r as [a|e]; [eauto | discriminate]. Qed.

(** Peel the leading binds of a constructor that returned. *)
Ltac returned H :=
  repeat match type of H with
  | _ ≫= _ = Return _ =>
      let a := fresh "a" in let Ha := fresh "Ha" in
      apply bind_Return in H as (a & Ha & H)
  end.

(** What the constructor leaves in the fields of every object it returns. *)
Lemma NearEarthObject_init_Return info o :
  NearEarthObject.__init__ info = Return o ->
  exists pdes name d pha x,
    info !! "pdes" = Some pdes /\ info !! "name" = Some name /\
    info !! "diameter" = Some d /\ info !! "pha" = Some pha /\
    (if truthy d then float_ d else Return nan) = Return x /\
    o = {| NearEarthObject.designation := or_ pdes (VStr "");
           NearEarthObject.name := or_ name VNone;
           NearEarthObject.diameter := x;
           NearEarthObject.hazardous := eq_str pha "Y";
           NearEarthObject.approaches := [] |}.
Proof.
  unfold NearEarthObject.__init__. destruct (info !! "self"); [discriminate |].
  intros Hr. returned Hr.
  injection Hr as <-.
  repeat match goal with Hg : getitem _ _ = Return _ |- _ => apply getitem_Return in Hg end.
  eauto 12.
Qed.

Lemma NearEarthObject_init_self info o :
  NearEarthObject.__init__ info = Return o -> info !! "self" = None.
Proof.
  unfold NearEarthObject.__init__. by destruct (info !! "self").
Qed.

Section Construction.
Context `{Helpers}.

(** C2, as the code has it: a diameter, distance or velocity that is a
    non-empty text [float()] rejects is not replaced by a default; the
    constructor raises [ValueError], for keywords without [self] whose
    earlier fields are present and convert. *)
Theorem malformed_value_raises (s : string) (neo_info cad_info cad_info' : gmap string value)
    (tm ds : value) :
  s <> "" -> PyFloat.of_string s = None ->
  neo_info !! "self" = None ->
  is_Some (neo_info !! "pdes") -> is_Some (neo_info !! "name") ->
  neo_info !! "diameter" = Some (VStr s) ->
  cad_info !! "self" = None ->
  is_Some (cad_info !! "designation") -> cad_info !! "time" = Some tm ->
  (truthy tm = true -> ¬ raises (cd_to_datetime tm)) ->
  cad_info !! "distance" = Some (VStr s) ->
  cad_info' !! "self" = None ->
  is_Some (cad_info' !! "designation") -> cad_info' !! "time" = Some tm ->
  cad_info' !! "distance" = Some ds -> (truthy ds = true -> ¬ raises (float_ ds)) ->
  cad_info' !! "velocity" = Some (VStr s) ->
  NearEarthObject.__init__ neo_info = Raise ValueError /\
  CloseApproach.__init__ cad_info = Raise ValueError /\
  CloseApproach.__init__ cad_info' = Raise ValueError.
Proof.
  intros Hs Hbad Hself [pdes Hp] [name Hn] Hd Hself1 [des Hdes] Htm Htime Hdist
    Hself2 [des' Hdes'] Htm' Hds Hdsok Hv.
  assert (Ht : truthy (VStr s) = true).
  { simpl. destruct (String.eqb_spec s ""); [contradiction | reflexivity]. }
  assert (Hf : float_ (VStr s) = Raise ValueError) by (simpl; by rewrite Hbad).
  assert (Htime' : exists t, (if truthy tm then Some <$> cd_to_datetime tm else Return None)
                             = Return t).
  { destruct (truthy tm); [| eauto].
    destruct (cd_to_datetime tm) as [t|e]; [simpl; eauto | by destruct Htime]. }
  destruct Htime' as [t Ht'].
  repeat split.
  - unfold NearEarthObject.__init__. rewrite Hself.
    rewrite (getitem_Some _ _ _ Hp), (getitem_Some _ _ _ Hn), (getitem_Some _ _ _ Hd).
    cbn -[truthy float_]. by rewrite Ht, Hf.
  - unfold CloseApproach.__init__. rewrite Hself1.
    rewrite (getitem_Some _ _ _ Hdes), (getitem_Some _ _ _ Htm), (getitem_Some _ _ _ Hdist).
    cbn -[truthy float_]. rewrite Ht'. cbn -[truthy float_]. by rewrite Ht, Hf.
  - unfold CloseApproach.__init__. rewrite Hself2.
    rewrite (getitem_Some _ _ _ Hdes'), (getitem_Some _ _ _ Htm'), (getitem_Some _ _ _ Hds),
      (getitem_Some _ _ _ Hv).
    cbn -[truthy float_]. rewrite Ht'. cbn -[truthy float_].
    destruct (truthy ds).
    + destruct (float_ ds) as [x|e]; [| by destruct Hdsok].
      cbn -[truthy float_]. by rewrite Ht, Hf.
    + cbn -[truthy float_]. by rewrite Ht, Hf.
Qed.

End Construction.

Lemma malformed_value_raises_witness :
  @CloseApproach.__init__ Sample.helpers
    (<["designation" := VStr "433"]> (<["time" := VStr "1900-Jan-01 00:00"]>
      (<["distance" := VStr "0.0921"]> (<["velocity" := VStr "fast"]> ∅))))
  = Raise ValueError.
Proof.
  apply (@malformed_value_raises Sample.helpers "fast"
           (<["diameter" := VStr "fast"]> (Sample.eros_row "N"))
           (<["designation" := VStr "433"]> (<["time" := VStr "1900-Jan-01 00:00"]>
             (<["distance" := VStr "fast"]> ∅)))
           (<["designation" := VStr "433"]> (<["time" := VStr "1900-Jan-01 00:00"]>
             (<["distance" := VStr "0.0921"]> (<["velocity" := VStr "fast"]> ∅))))
           (VStr "1900-Jan-01 00:00") (VStr "0.0921"));
    first [ discriminate | reflexivity | by eexists | by intros _ [] ].
Defined.

(** C2, counterexample: a row whose diameter is the text "abc" is not
    given the NaN default, and an approach whose distance is "abc" is not
    given 0.0: both constructors raise. *)
Lemma malformed_value_not_defaulted :
  NearEarthObject.__init__ (<["diameter" := VStr "abc"]> (Sample.eros_row "N"))
    = Raise ValueError /\
  @CloseApproach.__init__ Sample.helpers
    (<["designation" := VStr "433"]> (<["time" := VStr "1900-Jan-01 00:00"]>
      (<["distance" := VStr "abc"]> (<["velocity" := VStr "5.58"]> ∅))))
    = Raise ValueError.
Proof. split; reflexivity. Qed.

Section Defaults.
Context `{Helpers}.


End Defaults.



(** ** The hazardous flag *)

Lemma eq_str_true v s : eq_str v s = true <-> v = VStr s.
Proof.
  destruct v; simpl; try (split; [discriminate | congruence]).
  rewrite String.eqb_eq. split; congruence.
Qed.

(** C4: a constructed object is hazardous exactly when the row's ["pha"]
    field is the string "Y". *)
Theorem hazardous_iff_Y (info : gmap string value) (o : NearEarthObject.t) :
  NearEarthObject.__init__ info = Return o ->
  NearEarthObject.hazardous o = true <-> info !! "pha" = Some (VStr "Y").
Proof.
  intros Hr. apply NearEarthObject_init_Return in Hr
    as (pdes & name & d & pha & x & _ & _ & _ & Hpha & _ & ->).
  simpl. rewrite eq_str_true, Hpha. split; congruence.
Qed.

Lemma hazardous_iff_Y_witness :
  NearEarthObject.hazardous
    {| NearEarthObject.designation := VStr "433"; NearEarthObject.name := VStr "Eros";
       NearEarthObject.diameter := 16.84%float; NearEarthObject.hazardous := true;
       NearEarthObject.approaches := [] |} = true
  <-> Sample.eros_row "Y" !! "pha" = Some (VStr "Y").
Proof. apply (hazardous_iff_Y (Sample.eros_row "Y")). reflexivity. Defined.

(** The other flag values of the claim, run through the constructor. *)
Example not_hazardous_otherwise :
  NearEarthObject.hazardous <$> NearEarthObject.__init__ (Sample.eros_row "y") = Return false /\
  NearEarthObject.hazardous <$> NearEarthObject.__init__ (Sample.eros_row "N") = Return false /\
  NearEarthObject.hazardous <$> NearEarthObject.__init__ (Sample.eros_row "") = Return false /\
  NearEarthObject.hazardous <$>
    NearEarthObject.__init__ (<["pha" := VNone]> (Sample.eros_row "Y")) = Return false.
Proof. repeat split; reflexivity. Qed.

(** ** The full name *)

Lemma or_default_cases v dflt : or_ v dflt = dflt \/ truthy (or_ v dflt) = true.
Proof. unfold or_. destruct (truthy v) eqn:E; [right; by rewrite ?E | by left]. Qed.

Section Fullname.
Context `{Formatting}.

(** C5: for every object the constructor returns, [fullname] is
    "<designation> (<name>)" when the name is not [None], else
    "<designation>" when the designation is not empty, else
    "(No name specified)". *)
Theorem fullname_cases (info : gmap string value) (o : NearEarthObject.t) :
  NearEarthObject.__init__ info = Return o ->
  NearEarthObject.fullname o =
    match NearEarthObject.name o with
    | VNone =>
        match NearEarthObject.designation o with
        | VStr "" => "(No name specified)"
        | designation => str designation
        end
    | name => str (NearEarthObject.designation o) +:+ " (" +:+ str name +:+ ")"
    end.
Proof.
  intros Hr. apply NearEarthObject_init_Return in Hr
    as (pdes & name & d & pha & x & _ & _ & _ & _ & _ & ->).
  unfold NearEarthObject.fullname. cbn -[truthy or_ str].
  destruct (or_default_cases name VNone) as [-> | Hn].
  - cbn -[or_ str].
    destruct (or_default_cases pdes (VStr "")) as [-> | Hp]; [reflexivity |].
    rewrite Hp. destruct (or_ pdes (VStr "")) as [| | | |[|]]; done.
  - rewrite Hn. by destruct (or_ name VNone).
Qed.

End Fullname.

Lemma fullname_cases_witness :
  @NearEarthObject.fullname Sample.formatting
    {| NearEarthObject.designation := VStr "433"; NearEarthObject.name := VStr "Eros";
       NearEarthObject.diameter := 16.84%float; NearEarthObject.hazardous := false;
       NearEarthObject.approaches := [] |} = "433 (Eros)".
Proof. apply (@fullname_cases Sample.formatting (Sample.eros_row "N")). reflexivity. Defined.

(** ** The fields the object constructor reads *)

(** C10, as the code has it: two rows that the call accepts as keywords (no
    cells beyond the header, no column named [self]) and that agree on
    ["pdes"], ["name"], ["diameter"] and ["pha"] are constructed alike,
    whatever else they hold: the same exception, or objects with the same
    designation, name, diameter and hazardous flag and no approaches. *)
Theorem init_reads_four_fields (row1 row2 : csv_row) :
  restkey row1 = None -> restkey row2 = None ->
  cells row1 !! "self" = None -> cells row2 !! "self" = None ->
  (forall key, key ∈ ["pdes"; "name"; "diameter"; "pha"] ->
               cells row1 !! key = cells row2 !! key) ->
  NearEarthObject.of_row row1 = NearEarthObject.of_row row2 /\
  forall o, NearEarthObject.of_row row1 = Return o -> NearEarthObject.approaches o = [].
Proof.
  intros Hrest1 Hrest2 Hself1 Hself2 Hagree. unfold NearEarthObject.of_row.
  rewrite Hrest1, Hrest2. split.
  - unfold NearEarthObject.__init__, getitem. rewrite Hself1, Hself2.
    rewrite !Hagree by set_solver. reflexivity.
  - intros o Hr. apply NearEarthObject_init_Return in Hr
      as (pdes & name & d & pha & x & _ & _ & _ & _ & _ & ->).
    reflexivity.
Qed.

Lemma init_reads_four_fields_witness :
  NearEarthObject.of_row (row_of_cells (<["orbit_id" := VStr "659"]> (Sample.eros_row "N")))
  = NearEarthObject.of_row (row_of_cells (<["class" := VStr "AMO"]> (Sample.eros_row "N"))).
Proof.
  apply (init_reads_four_fields
           (row_of_cells (<["orbit_id" := VStr "659"]> (Sample.eros_row "N")))
           (row_of_cells (<["class" := VStr "AMO"]> (Sample.eros_row "N"))));
    try reflexivity.
  intros key Hkey. repeat (apply elem_of_cons in Hkey as [-> | Hkey]; [reflexivity |]).
  by apply elem_of_nil in Hkey.
Defined.

(** C10, counterexample: a column named [self], or a cell beyond the
    header, is another field of the row, and it decides the outcome: the
    rows agree with Eros's row on the four fields, yet the call raises where
    Eros's row constructs. *)
Lemma other_fields_decide :
  (forall key, key ∈ ["pdes"; "name"; "diameter"; "pha"] ->
     (<["self" := VStr "433"]> (Sample.eros_row "N")) !! key = Sample.eros_row "N" !! key) /\
  NearEarthObject.of_row (row_of_cells (<["self" := VStr "433"]> (Sample.eros_row "N")))
    = Raise TypeError /\
  NearEarthObject.of_row {| cells := Sample.eros_row "N"; restkey := Some ["659"] |}
    = Raise TypeError /\
  NearEarthObject.of_row (row_of_cells (Sample.eros_row "N"))
    = Return {| NearEarthObject.designation := VStr "433";
                NearEarthObject.name := VStr "Eros";
                NearEarthObject.diameter := 16.84%float;
                NearEarthObject.hazardous := false;
                NearEarthObject.approaches := [] |}.
Proof.
  split; [| repeat split; reflexivity].
  intros key Hkey. repeat (apply elem_of_cons in Hkey as [-> | Hkey]; [reflexivity |]).
  by apply elem_of_nil in Hkey.
Qed.

(** ** Serializing an object and reading it back *)

Lemma or_idem v dflt : or_ (or_ v dflt) dflt = or_ v dflt.
Proof.
  unfold or_. destruct (truthy v) eqn:E; [by rewrite E |].
  by destruct (truthy dflt).
Qed.

Lemma reread_serialize o :
  reread (NearEarthObject.serialize o) =
    <["pdes" := NearEarthObject.designation o]> (<["name" := NearEarthObject.name o]>
      (<["diameter" := VFloat (NearEarthObject.diameter o)]>
        (<["pha" := VBool (NearEarthObject.hazardous o)]> ∅))).
Proof. reflexivity. Qed.

(** C7, as the code has it: reading the serialized fields of a constructed
    object back through the constructor keeps the designation and the name;
    it keeps the diameter, NaN included, unless the diameter is zero, which
    comes back as NaN; and the hazardous flag comes back false. *)
Theorem roundtrip_fields (info : gmap string value) (o : NearEarthObject.t) :
  NearEarthObject.__init__ info = Return o ->
  roundtrip o = Return
    {| NearEarthObject.designation := NearEarthObject.designation o;
       NearEarthObject.name := NearEarthObject.name o;
       NearEarthObject.diameter :=
         if PrimFloat.eqb (NearEarthObject.diameter o) 0 then nan
         else NearEarthObject.diameter o;
       NearEarthObject.hazardous := false;
       NearEarthObject.approaches := [] |}.
Proof.
  intros Hr. apply NearEarthObject_init_Return in Hr
    as (pdes & name & d & pha & x & _ & _ & _ & _ & _ & ->).
  unfold roundtrip, NearEarthObject.__init__. rewrite reread_serialize.
  erewrite (getitem_Some _ "pdes"), (getitem_Some _ "name"), (getitem_Some _ "diameter"),
    (getitem_Some _ "pha") by (by simplify_map_eq).
  cbn -[or_ PrimFloat.eqb]. rewrite !or_idem.
  by destruct (PrimFloat.eqb x 0).
Qed.

Lemma roundtrip_fields_witness :
  roundtrip
    {| NearEarthObject.designation := VStr "433"; NearEarthObject.name := VStr "Eros";
       NearEarthObject.diameter := 16.84%float; NearEarthObject.hazardous := true;
       NearEarthObject.approaches := [] |}
  = Return
    {| NearEarthObject.designation := VStr "433"; NearEarthObject.name := VStr "Eros";
       NearEarthObject.diameter := 16.84%float; NearEarthObject.hazardous := false;
       NearEarthObject.approaches := [] |}.
Proof. apply (roundtrip_fields (Sample.eros_row "Y")). reflexivity. Defined.

(** C7, counterexample: the object built from Eros's row with the flag "Y"
    is hazardous; its serialized fields read back give an object that is
    not. *)
Lemma roundtrip_loses_hazard :
  (o ← NearEarthObject.__init__ (Sample.eros_row "Y");
   o' ← roundtrip o;
   Return (NearEarthObject.hazardous o, NearEarthObject.hazardous o'))
  = Return (true, false).
Proof. reflexivity. Qed.

(** Handed back as they are, the serialized fields do not even carry the
    constructor's keywords. *)
Example serialized_names_not_read :
  (o ← NearEarthObject.__init__ (Sample.eros_row "Y");
   NearEarthObject.__init__ (list_to_map (NearEarthObject.serialize o)))
  = Raise (KeyError "pdes").
Proof. reflexivity. Qed.

(** A diameter of zero is read back as NaN. *)
Example roundtrip_zero_diameter :
  (o ← NearEarthObject.__init__ (<["diameter" := VStr "0.0"]> (Sample.eros_row "N"));
   o' ← roundtrip o;
   Return (NearEarthObject.diameter o, NearEarthObject.diameter o'))
  = Return (0%float, nan).
Proof. reflexivity. Qed.

(** ** Loading close approaches by column position *)

Lemma index_Return l s i :
  index l s = Return i ->
  l !! i = Some (VStr s) /\ forall j, (j < i)%nat -> l !! j <> Some (VStr s).
Proof.
  revert i. induction l as [|v l IH]; intros i; simpl; [discriminate |].
  destruct (eq_str v s) eqn:E.
  - intros [= <-]. apply eq_str_true in E as ->. split; [reflexivity | lia].
  - intros Hi. apply bind_Return in Hi as (i' & Hi' & [= <-]).
    destruct (IH i' Hi') as [Hat Hbefore]. split; [exact Hat |].
    intros [|j] Hj; simpl.
    + intros [= ->]. by rewrite (proj2 (eq_str_true _ _) eq_refl) in E.
    + apply Hbefore. lia.
Qed.

Lemma mapM_Return {A B} (f : A -> result B) (l : list A) (k : list B) :
  Forall2 (fun x y => f x = Return y) l k -> mapM f l = Return k.
Proof.
  induction 1 as [|x y l k Hxy _ IH]; [reflexivity |].
  cbn. rewrite Hxy. cbn. by rewrite IH.
Qed.

Lemma list_getitem_Some item i v : item !! i = Some v -> list_getitem item i = Return v.
Proof. unfold list_getitem. by intros ->. Qed.

Section LoadApproaches.
Context `{Helpers, Codecs}.

(** C6: [load_approaches] finds the positions of "des", "cd", "dist" and
    "v_rel" in the "fields" array once, and builds from every data row, in
    order, the approach whose designation, time, distance and velocity are
    the row's cells at these positions.  The Eros row of the claim gives an
    approach with designation key "433", distance 0.0921 and velocity 5.58. *)
Theorem load_approaches_by_position (path content : string) (w : World) (doc : cad)
    (di ti dsi vi : nat) :
  files w !! path = Some content -> json_load content = Return doc ->
  index (fields doc) "des" = Return di -> index (fields doc) "cd" = Return ti ->
  index (fields doc) "dist" = Return dsi -> index (fields doc) "v_rel" = Return vi ->
  (fields doc !! di = Some (VStr "des") /\ fields doc !! ti = Some (VStr "cd") /\
   fields doc !! dsi = Some (VStr "dist") /\ fields doc !! vi = Some (VStr "v_rel")) /\
  (forall approaches,
     Forall2 (fun item a => exists designation time distance velocity,
                item !! di = Some designation /\ item !! ti = Some time /\
                item !! dsi = Some distance /\ item !! vi = Some velocity /\
                CloseApproach.__init__
                  (<["designation" := designation]> (<["time" := time]>
                    (<["distance" := distance]> (<["velocity" := velocity]> ∅))))
                = Return a)
             (data doc) approaches ->
     load_approaches path w = (Return (Some approaches), w)) /\
  (forall t,
     fields doc = [VStr "des"; VStr "cd"; VStr "dist"; VStr "v_rel"] ->
     data doc = [[VStr "433"; VStr "1900-Jan-01 00:00"; VStr "0.0921"; VStr "5.58"]] ->
     cd_to_datetime (VStr "1900-Jan-01 00:00") = Return t ->
     load_approaches path w =
       (Return (Some [ {| CloseApproach._designation := VStr "433";
                          CloseApproach.time := Some t;
                          CloseApproach.distance := 0.0921%float;
                          CloseApproach.velocity := 5.58%float;
                          CloseApproach.neo := None |} ]), w)).
Proof.
  intros Hfile Hjson Hdi Hti Hdsi Hvi.
  assert (Hrows : forall approaches,
            Forall2 (fun item a => approach_of_item di ti dsi vi item = Return a)
                    (data doc) approaches ->
            load_approaches path w = (Return (Some approaches), w)).
  { intros approaches Hall. unfold load_approaches, open_r. rewrite Hfile.
    cbn -[index mapM]. rewrite Hjson. cbn -[index mapM].
    rewrite Hdi, Hti, Hdsi, Hvi. cbn -[mapM].
    by rewrite (mapM_Return _ _ _ Hall). }
  split; [| split].
  - repeat split; eapply index_Return; eassumption.
  - intros approaches Hall. apply Hrows.
    eapply Forall2_impl; [exact Hall |].
    intros item a (d & t & ds & v & Hd & Ht & Hds & Hv & Ha).
    unfold approach_of_item.
    by rewrite (list_getitem_Some _ _ _ Hd), (list_getitem_Some _ _ _ Ht),
      (list_getitem_Some _ _ _ Hds), (list_getitem_Some _ _ _ Hv).
  - intros t Hfields Hdata Ht. apply Hrows.
    rewrite Hfields in Hdi, Hti, Hdsi, Hvi.
    injection Hdi as <-. injection Hti as <-. injection Hdsi as <-. injection Hvi as <-.
    rewrite Hdata. constructor; [| constructor].
    unfold approach_of_item, CloseApproach.__init__. cbn -[float_ getitem].
    erewrite (getitem_Some _ "designation"), (getitem_Some _ "time"),
      (getitem_Some _ "distance"), (getitem_Some _ "velocity") by (by simplify_map_eq).
    cbn -[float_]. rewrite Ht. reflexivity.
Qed.

End LoadApproaches.

Lemma load_approaches_by_position_witness :
  @load_approaches Sample.helpers Sample.codecs "cad.json"
    {| files := {["cad.json" := "{}"]}; stdout := [] |}
  = (Return (Some [ {| CloseApproach._designation := VStr "433";
                       CloseApproach.time := Some ("1900-Jan-01 00:00" : @datetime Sample.helpers);
                       CloseApproach.distance := 0.0921%float;
                       CloseApproach.velocity := 5.58%float;
                       CloseApproach.neo := None |} ]),
     {| files := {["cad.json" := "{}"]}; stdout := [] |}).
Proof.
  refine (proj2 (proj2 (@load_approaches_by_position Sample.helpers Sample.codecs
            "cad.json" "{}" {| files := {["cad.json" := "{}"]}; stdout := [] |}
            Sample.eros_approach 0 1 2 3 _ _ _ _ _ _)) "1900-Jan-01 00:00" _ _ _);
    reflexivity.
Defined.

(** ** Writing the JSON document *)

Section WriteJson.
Context `{Helpers, Codecs}.








End WriteJson.


(** ** Approaches that are not linked yet *)

Lemma string_app_nil_r (s : string) : s +:+ "" = s.
Proof.
  induction s as [|c s IH]; [reflexivity |].
  change (String c (s +:+ "") = String c s). by rewrite IH.
Qed.

Lemma string_app_assoc (s t u : string) : s +:+ (t +:+ u) = (s +:+ t) +:+ u.
Proof.
  induction s as [|c s IH]; [reflexivity |].
  change (String c (s +:+ (t +:+ u)) = String c ((s +:+ t) +:+ u)). by rewrite IH.
Qed.

Section Unlinked.
Context `{Helpers, Codecs, Formatting}.

Lemma csv_rowdict_unlinked a :
  CloseApproach.neo a = None ->
  exists e, csv_rowdict a = Raise e /\
            ((exists ts, CloseApproach.time_str a = Return ts) -> e = AttributeError "designation").
Proof.
  intros Hneo. unfold csv_rowdict, CloseApproach.neo_attr. rewrite Hneo.
  destruct (CloseApproach.time_str a) as [ts|e]; cbn.
  - eauto.
  - exists e. split; [reflexivity |]. by intros [ts [=]].
Qed.

Lemma csv_rowdict_Raise a e :
  csv_rowdict a = Raise e -> (exists ts, CloseApproach.time_str a = Return ts) ->
  e = AttributeError "designation".
Proof.
  unfold csv_rowdict, CloseApproach.neo_attr. intros He [ts Hts]. rewrite Hts in He.
  destruct (CloseApproach.neo a); cbn in He; congruence.
Qed.

Lemma write_rows_unlinked a results out :
  CloseApproach.neo a = None -> a ∈ results ->
  exists e out', write_rows results out = (Raise e, out') /\
    (Forall (fun b => exists ts, CloseApproach.time_str b = Return ts) results ->
     e = AttributeError "designation").
Proof.
  intros Hneo Hin. revert out.
  induction results as [|row rest IH]; intros out; [by apply elem_of_nil in Hin |].
  simpl. destruct (csv_rowdict row) as [rowdict|e] eqn:Hrow.
  - apply elem_of_cons in Hin as [<- | Hin].
    + destruct (csv_rowdict_unlinked a Hneo) as (e & He & _). congruence.
    + destruct (IH Hin (out +:+ DictWriter_writerow rowdict)) as (e & out' & Hw & He).
      exists e, out'. split; [exact Hw |]. intros Hall. apply He. by inversion Hall.
  - exists e, out. split; [reflexivity |]. intros Hall.
    eapply csv_rowdict_Raise; [exact Hrow |]. by inversion Hall.
Qed.

Lemma csv_rowdict_linked a ts o :
  CloseApproach.time_str a = Return ts -> CloseApproach.neo a = Some o ->
  exists rowdict, csv_rowdict a = Return rowdict /\
                  DictWriter_writerow rowdict = csv_writerow (csv_cells ts a o).
Proof.
  intros Hts Hneo. unfold csv_rowdict, CloseApproach.neo_attr. rewrite Hts, Hneo.
  eexists. split; reflexivity.
Qed.

(** The rows written for a prefix of linked approaches extend the text. *)
Lemma write_rows_prefix pre rest rows out :
  Forall2 (fun a cells => exists ts o,
             CloseApproach.time_str a = Return ts /\ CloseApproach.neo a = Some o /\
             cells = csv_cells ts a o) pre rows ->
  write_rows (pre ++ rest) out
  = write_rows rest (fold_left (fun text cells => text +:+ csv_writerow cells) rows out).
Proof.
  intros Hall. revert out.
  induction Hall as [|a cells pre rows (ts & o & Hts & Hneo & ->) _ IH]; intros out;
    [reflexivity |].
  destruct (csv_rowdict_linked a ts o Hts Hneo) as (rowdict & Hrow & Hline).
  cbn. rewrite Hrow, Hline. apply IH.
Qed.

Lemma write_rows_extends results out :
  exists rest, (write_rows results out).2 = out +:+ rest.
Proof.
  revert out. induction results as [|row results IH]; intros out; cbn.
  - exists "". by rewrite string_app_nil_r.
  - destruct (csv_rowdict row) as [rowdict|e]; cbn.
    + destruct (IH (out +:+ DictWriter_writerow rowdict)) as [rest ->].
      exists (DictWriter_writerow rowdict +:+ rest). by rewrite string_app_assoc.
    + exists "". by rewrite string_app_nil_r.
Qed.

(** The first approach without an object stops the rows, with the exception
    of the time formatting when that raises, else of the dereference. *)
Lemma csv_rowdict_unlinked_exact a :
  CloseApproach.neo a = None ->
  csv_rowdict a = match datetime_to_str (CloseApproach.time a) with
                  | Return _ => Raise (AttributeError "designation")
                  | Raise e => Raise e
                  end.
Proof.
  intros Hneo. unfold csv_rowdict, CloseApproach.neo_attr, CloseApproach.time_str.
  rewrite Hneo. by destruct (datetime_to_str (CloseApproach.time a)).
Qed.

(** C9, as the code has it: for an approach whose [neo] is still [None],
    [str()] gives no string but raises, with [AttributeError] when
    [datetime_to_str], which is evaluated first, returns for its time and
    with the exception of [datetime_to_str] otherwise.  [write_to_csv]
    raises in the same way on reaching the approach, but not instead of
    producing output: the file then holds the header and the lines of the
    linked approaches before it, and with an unlinked approach anywhere among
    the results the call raises and leaves a file that begins with the
    header. *)
Theorem unlinked_approach_raises (a : CloseApproach.t) :
  CloseApproach.neo a = None ->
  CloseApproach.__str__ a
  = match datetime_to_str (CloseApproach.time a) with
    | Return _ => Raise (AttributeError "fullname")
    | Raise e => Raise e
    end /\
  (forall pre post rows filename w,
     Forall2 (fun b cells => exists ts o, formats_linked b ts o /\ cells = csv_cells ts b o)
             pre rows ->
     write_to_csv (pre ++ a :: post) filename w
     = (match datetime_to_str (CloseApproach.time a) with
        | Return _ => Raise (AttributeError "designation")
        | Raise e => Raise e
        end, written filename (csv_text rows) w)) /\
  (forall results filename w, a ∈ results ->
     exists e text,
       write_to_csv results filename w
       = (Raise e, written filename (csv_writerow (map VStr fieldnames) +:+ text) w)).
Proof.
  intros Hneo. repeat split.
  - unfold CloseApproach.__str__, CloseApproach.neo_attr, CloseApproach.time_str.
    rewrite Hneo. by destruct (datetime_to_str (CloseApproach.time a)).
  - intros pre post rows filename w Hrows. unfold write_to_csv.
    rewrite (write_rows_prefix pre (a :: post) rows).
    + cbn. rewrite (csv_rowdict_unlinked_exact a Hneo).
      by destruct (datetime_to_str (CloseApproach.time a)).
    + eapply Forall2_impl; [exact Hrows |].
      intros b cells (ts & o & [Hts Ho] & ->). by exists ts, o.
  - intros results filename w Hin. unfold write_to_csv.
    destruct (write_rows_unlinked a results (csv_writerow (map VStr fieldnames)) Hneo Hin)
      as (e & out' & Hw & _).
    destruct (write_rows_extends results (csv_writerow (map VStr fieldnames))) as [text Htext].
    rewrite Hw in *. cbn in Htext. subst out'. eauto.
Qed.

End Unlinked.

Lemma unlinked_approach_raises_witness :
  @CloseApproach.__str__ Sample.helpers Sample.formatting Sample.unlinked
    = Raise (AttributeError "fullname") /\
  @write_to_csv Sample.helpers Render.codecs
    [Render.first; Sample.unlinked; Render.second] "out.csv" Sample.empty_world
  = (Raise (AttributeError "designation"),
     written "out.csv"
       ("datetime_utc,distance_au,velocity_km_s,designation,name,diameter_km," +:+
        "potentially_hazardous,;1900-01-01 00:00,1p-3,11p-1,433,Eros,67p-2,False,;")
       Sample.empty_world).
Proof.
  destruct (@unlinked_approach_raises Sample.helpers Render.codecs Sample.formatting
              Sample.unlinked eq_refl) as (Hstr & Hcsv & _).
  split; [exact Hstr |].
  apply (Hcsv [Render.first] [Render.second]
           [@csv_cells Sample.helpers "1900-01-01 00:00" Render.first Render.eros]
           "out.csv" Sample.empty_world).
  repeat constructor. exists "1900-01-01 00:00", Render.eros. by repeat split.
Defined.

(** C9, counterexample: [write_to_csv] on a single unlinked approach raises,
    yet it has produced output: the file, which was not there, now holds the
    header line. *)
Lemma unlinked_csv_leaves_output :
  files Sample.empty_world !! "out.csv" = None /\
  @write_to_csv Sample.helpers Render.codecs [Sample.unlinked] "out.csv" Sample.empty_world
  = (Raise (AttributeError "designation"),
     written "out.csv"
       ("datetime_utc,distance_au,velocity_km_s,designation,name,diameter_km," +:+
        "potentially_hazardous,;")
       Sample.empty_world) /\
  files (@write_to_csv Sample.helpers Render.codecs [Sample.unlinked] "out.csv"
           Sample.empty_world).2 !! "out.csv"
  = Some ("datetime_utc,distance_au,velocity_km_s,designation,name,diameter_km," +:+
          "potentially_hazardous,;").
Proof. repeat split; reflexivity. Qed.

(** * Further properties *)

(** ** What the object constructor raises, and when it returns *)

Lemma float_truthy_Raise d e :
  truthy d = true -> float_ d = Raise e ->
  (exists s, d = VStr s /\ PyFloat.of_string s = None /\ e = ValueError) \/
  (exists z, d = VInt z /\ PyFloat.of_int z = None /\ e = OverflowError).
Proof.
  destruct d as [|b|z|f|s]; simpl; try discriminate.
  - intros _. destruct (PyFloat.of_int z) eqn:E; simpl; [discriminate |].
    intros [= <-]. right. eauto.
  - intros _. destruct (PyFloat.of_string s) eqn:E; simpl; [discriminate |].
    intros [= <-]. left. eauto.
Qed.

(** Follow the object constructor through the binding of its keywords, its
    lookups and the conversion of the diameter, keeping the equations. *)
Ltac through_init info :=
  unfold NearEarthObject.__init__, getitem;
  let Hself := fresh "Hself" in
  destruct (info !! "self") eqn:Hself;
  [ | let pdes := fresh "pdes" in let Hp := fresh "Hp" in
      destruct (info !! "pdes") as [pdes|] eqn:Hp; cbn -[truthy float_ or_];
      [ let name := fresh "name" in let Hn := fresh "Hn" in
        destruct (info !! "name") as [name|] eqn:Hn; cbn -[truthy float_ or_];
        [ let d := fresh "d" in let Hd := fresh "Hd" in
          destruct (info !! "diameter") as [d|] eqn:Hd; cbn -[truthy float_ or_];
          [ let Ht := fresh "Ht" in
            destruct (truthy d) eqn:Ht; cbn -[float_ or_];
            [ let x := fresh "x" in let Hf := fresh "Hf" in
              destruct (float_ d) as [x|?] eqn:Hf; cbn -[or_] |];
            let pha := fresh "pha" in let Hh := fresh "Hh" in
            try (destruct (info !! "pha") as [pha|] eqn:Hh; cbn -[or_])
          | ]
        | ]
      | ] ].

Lemma NearEarthObject_of_row_no_FileNotFoundError row path :
  NearEarthObject.of_row row <> Raise (FileNotFoundError path).
Proof.
  unfold NearEarthObject.of_row. destruct (restkey row); [discriminate |].
  through_init (cells row); try discriminate.
  all: try (destruct (float_truthy_Raise _ _ Ht Hf) as [(s & _ & _ & ->) | (z & _ & _ & ->)];
    discriminate).
Qed.

(** X1: the exceptions of constructing an object from a row.  The call
    raises [TypeError] for a row with cells beyond the header or with a
    column named [self], [KeyError] for one of the four fields that is
    missing, [ValueError] for a non-empty diameter text that is no number,
    [OverflowError] for an integer diameter too large for a float, and
    nothing else. *)
Theorem NearEarthObject_init_exceptions (row : csv_row) (e : exn) :
  NearEarthObject.of_row row = Raise e ->
  ((is_Some (restkey row) \/ is_Some (cells row !! "self")) /\ e = TypeError) \/
  (exists key, key ∈ ["pdes"; "name"; "diameter"; "pha"] /\ cells row !! key = None /\
               e = KeyError key) \/
  (exists s, cells row !! "diameter" = Some (VStr s) /\ s <> "" /\
             PyFloat.of_string s = None /\ e = ValueError) \/
  (exists z, cells row !! "diameter" = Some (VInt z) /\ PyFloat.of_int z = None /\
             e = OverflowError).
Proof.
  unfold NearEarthObject.of_row.
  destruct (restkey row) as [rest|] eqn:Hrest.
  { intros [= <-]. left. split; [left; eauto | reflexivity]. }
  through_init (cells row); intros Hr; try discriminate.
  { injection Hr as <-. left. split; [right; eauto | reflexivity]. }
  all: right.
  all: try (injection Hr as <-; left; eexists;
            split; [| split; [eassumption | reflexivity]]; set_solver).
  all: injection Hr as <-; right;
    destruct (float_truthy_Raise _ _ Ht Hf) as [(s & -> & Hs & ->) | (z & -> & Hz & ->)];
    [ left; exists s; repeat split; try done; intros ->; discriminate
    | right; eauto ].
Qed.

Lemma NearEarthObject_init_exceptions_witness :
  ((is_Some (restkey (row_of_cells Fixture.bad_row)) \/
    is_Some (cells (row_of_cells Fixture.bad_row) !! "self")) /\ ValueError = TypeError) \/
  (exists key, key ∈ ["pdes"; "name"; "diameter"; "pha"] /\
               cells (row_of_cells Fixture.bad_row) !! key = None /\
               ValueError = KeyError key) \/
  (exists s, cells (row_of_cells Fixture.bad_row) !! "diameter" = Some (VStr s) /\ s <> "" /\
             PyFloat.of_string s = None /\ ValueError = ValueError) \/
  (exists z, cells (row_of_cells Fixture.bad_row) !! "diameter" = Some (VInt z) /\
             PyFloat.of_int z = None /\ ValueError = OverflowError).
Proof.
  apply (NearEarthObject_init_exceptions (row_of_cells Fixture.bad_row) ValueError).
  reflexivity.
Defined.

(** X2: a row whose diameter cell is text or [None] is constructed exactly
    when it has no cells beyond the header and no column named [self], it
    carries the four fields, and the diameter is empty or a number. *)
Theorem NearEarthObject_init_returns_iff (row : csv_row) :
  (forall d, cells row !! "diameter" = Some d -> is_cell d) ->
  (exists o, NearEarthObject.of_row row = Return o) <->
  restkey row = None /\ cells row !! "self" = None /\
  is_Some (cells row !! "pdes") /\ is_Some (cells row !! "name") /\
  is_Some (cells row !! "pha") /\
  exists d, cells row !! "diameter" = Some d /\
            (absent d = true \/ exists s, d = VStr s /\ is_Some (PyFloat.of_string s)).
Proof.
  intros Hcell. unfold NearEarthObject.of_row. split.
  - intros [o Hr]. destruct (restkey row); [discriminate |].
    split; [reflexivity |]. split; [by eapply NearEarthObject_init_self |].
    apply NearEarthObject_init_Return in Hr
      as (pdes & name & d & pha & x & Hp & Hn & Hd & Hh & Hx & _).
    repeat split; eauto. exists d. split; [exact Hd |].
    specialize (Hcell d Hd). rewrite (cell_truthy d Hcell) in Hx.
    destruct (absent d) eqn:Ha; [by left | right].
    destruct d as [| | | |s]; try done. exists s. split; [reflexivity |].
    simpl in Hx. destruct (PyFloat.of_string s); [eauto | discriminate].
  - intros (-> & Hself & [pdes Hp] & [name Hn] & [pha Hh] & d & Hd & Hok).
    unfold NearEarthObject.__init__. rewrite Hself.
    rewrite (getitem_Some _ _ _ Hp), (getitem_Some _ _ _ Hn), (getitem_Some _ _ _ Hd),
      (getitem_Some _ _ _ Hh).
    cbn -[truthy float_ or_].
    destruct Hok as [Ha | (s & -> & [x Hx])].
    + rewrite (absent_falsy d Ha). cbn. eauto.
    + destruct (truthy (VStr s)); cbn -[or_]; [rewrite Hx |]; cbn; eauto.
Qed.

Lemma NearEarthObject_init_returns_iff_witness :
  (exists o, NearEarthObject.of_row (row_of_cells (Sample.eros_row "N")) = Return o) <->
  restkey (row_of_cells (Sample.eros_row "N")) = None /\
  cells (row_of_cells (Sample.eros_row "N")) !! "self" = None /\
  is_Some (cells (row_of_cells (Sample.eros_row "N")) !! "pdes") /\
  is_Some (cells (row_of_cells (Sample.eros_row "N")) !! "name") /\
  is_Some (cells (row_of_cells (Sample.eros_row "N")) !! "pha") /\
  exists d, cells (row_of_cells (Sample.eros_row "N")) !! "diameter" = Some d /\
            (absent d = true \/ exists s, d = VStr s /\ is_Some (PyFloat.of_string s)).
Proof.
  apply (NearEarthObject_init_returns_iff (row_of_cells (Sample.eros_row "N"))).
  intros d. vm_compute. intros [= <-]. exact I.
Defined.

(** X3: in every object the constructor returns, an empty or missing name
    is [None], never the empty string, and the designation is never
    [None]: whatever is falsy became the default. *)
Theorem constructed_name_designation (info : gmap string value) (o : NearEarthObject.t) :
  NearEarthObject.__init__ info = Return o ->
  NearEarthObject.name o <> VStr "" /\ NearEarthObject.designation o <> VNone /\
  (truthy (NearEarthObject.name o) = false -> NearEarthObject.name o = VNone) /\
  (truthy (NearEarthObject.designation o) = false ->
   NearEarthObject.designation o = VStr "").
Proof.
  intros Hr. apply NearEarthObject_init_Return in Hr
    as (pdes & name & d & pha & x & _ & _ & _ & _ & _ & ->).
  cbn -[or_ truthy].
  destruct (or_default_cases name VNone) as [Hn | Hn],
           (or_default_cases pdes (VStr "")) as [Hp | Hp];
    rewrite ?Hn, ?Hp; repeat split; try done;
    try (intros Heq; rewrite Heq in *; discriminate).
Qed.

Lemma constructed_name_designation_witness :
  VNone <> VStr "" /\ VStr "433" <> VNone /\
  (truthy VNone = false -> VNone = VNone) /\
  (truthy (VStr "433") = false -> VStr "433" = VStr "").
Proof.
  apply (constructed_name_designation (<["name" := VStr ""]> (Sample.eros_row "N"))
           {| NearEarthObject.designation := VStr "433"; NearEarthObject.name := VNone;
              NearEarthObject.diameter := 16.84%float; NearEarthObject.hazardous := false;
              NearEarthObject.approaches := [] |}).
  reflexivity.
Defined.

(** ** Loading the catalog *)

Lemma mapM_Return_inv {A B} (f : A -> result B) (l : list A) (k : list B) :
  mapM f l = Return k -> Forall2 (fun x y => f x = Return y) l k.
Proof.
  revert k. induction l as [|x l IH]; intros k; cbn.
  - intros [= <-]. constructor.
  - destruct (f x) as [y|e] eqn:E; cbn; [| discriminate].
    destruct (mapM f l) as [k'|e]; cbn; [| discriminate].
    intros [= <-]. constructor; auto.
Qed.

Lemma mapM_Raise_first {A B} (f : A -> result B) (pre post : list A) (bad : A) (e : exn) :
  Forall (fun x => exists y, f x = Return y) pre -> f bad = Raise e ->
  mapM f (pre ++ bad :: post) = Raise e.
Proof.
  intros Hpre Hbad. induction Hpre as [|x pre [y Hy] _ IH]; cbn.
  - by rewrite Hbad.
  - rewrite Hy. cbn. by rewrite IH.
Qed.

Lemma mapM_Raise_elem {A B} (f : A -> result B) (l : list A) (e : exn) :
  mapM f l = Raise e -> exists x, x ∈ l /\ f x = Raise e.
Proof.
  induction l as [|x l IH]; cbn; [discriminate |].
  destruct (f x) as [y|e'] eqn:E; cbn.
  - destruct (mapM f l) as [k|e'']; cbn; [discriminate |].
    intros [= <-]. destruct IH as (x' & Hin & Hx'); [reflexivity |].
    exists x'. split; [apply elem_of_cons; by right | exact Hx'].
  - intros [= <-]. exists x. split; [apply elem_of_cons; by left | exact E].
Qed.

Section LoadNeos.
Context `{Codecs}.

(** With the file in place the result is that of constructing the rows, and
    nothing is printed. *)
Lemma load_neos_opened path content w :
  files w !! path = Some content ->
  load_neos path w = (Some <$> mapM NearEarthObject.of_row (csv_DictReader content), w).
Proof.
  intros Hfile. unfold load_neos, open_r. rewrite Hfile. cbn -[mapM].
  destruct (mapM NearEarthObject.of_row (csv_DictReader content)) as [out|e] eqn:Hm;
    cbn; [reflexivity |].
  destruct e; try reflexivity.
  apply mapM_Raise_elem in Hm as (row & _ & Hrow).
  by apply NearEarthObject_of_row_no_FileNotFoundError in Hrow.
Qed.

(** X4: [load_neos] returns a collection exactly when the file exists and
    every row constructs; the collection then holds one object per row, in
    the order of the rows, and nothing is printed. *)
Theorem load_neos_returns_iff (path : string) (w w' : World)
    (neos : list NearEarthObject.t) :
  load_neos path w = (Return (Some neos), w') <->
  exists content, files w !! path = Some content /\
    Forall2 (fun row o => NearEarthObject.of_row row = Return o)
            (csv_DictReader content) neos /\
    w' = w.
Proof.
  split.
  - destruct (files w !! path) as [content|] eqn:Hfile.
    + rewrite (load_neos_opened _ _ _ Hfile). intros [= Hm <-].
      exists content. repeat split.
      apply mapM_Return_inv.
      destruct (mapM NearEarthObject.of_row (csv_DictReader content)); cbn in Hm; congruence.
    + unfold load_neos, open_r. rewrite Hfile. discriminate.
  - intros (content & Hfile & Hall & ->).
    rewrite (load_neos_opened _ _ _ Hfile). by rewrite (mapM_Return _ _ _ Hall).
Qed.

(** X5: [load_neos] never returns [None]: every call either returns a
    collection or raises. *)
Theorem load_neos_never_None (path : string) (w : World) :
  (exists neos, (load_neos path w).1 = Return (Some neos)) \/
  (exists e, (load_neos path w).1 = Raise e).
Proof.
  destruct (files w !! path) as [content|] eqn:Hfile.
  - rewrite (load_neos_opened _ _ _ Hfile).
    destruct (mapM NearEarthObject.of_row (csv_DictReader content)); cbn; eauto.
  - unfold load_neos, open_r. rewrite Hfile. cbn. eauto.
Qed.

(** X6: when a row of an existing file does not construct, [load_neos]
    raises the exception of the first such row to its caller: no collection
    of the rows before it is returned, and nothing is printed. *)
Theorem load_neos_first_bad_row (path content : string) (w : World)
    (pre post : list csv_row) (bad : csv_row) (e : exn) :
  files w !! path = Some content ->
  csv_DictReader content = (pre ++ bad :: post)%list ->
  Forall (fun row => exists o, NearEarthObject.of_row row = Return o) pre ->
  NearEarthObject.of_row bad = Raise e ->
  load_neos path w = (Raise e, w).
Proof.
  intros Hfile Hrows Hpre Hbad. rewrite (load_neos_opened _ _ _ Hfile), Hrows.
  by rewrite (mapM_Raise_first _ _ _ _ _ Hpre Hbad).
Qed.

(** X7: [load_neos] prints, one line, exactly when the file is missing. *)
Theorem load_neos_prints_iff_missing (path : string) (w : World) :
  (files w !! path = None ->
   stdout (load_neos path w).2 = (stdout w ++ ["File not found"])%list) /\
  (is_Some (files w !! path) -> (load_neos path w).2 = w).
Proof.
  split.
  - intros Hfile. unfold load_neos, open_r. by rewrite Hfile.
  - intros [content Hfile]. by rewrite (load_neos_opened _ _ _ Hfile).
Qed.

End LoadNeos.

Lemma load_neos_returns_iff_witness :
  exists neos, @load_neos Fixture.codecs "neos.csv" Fixture.disk
               = (Return (Some neos), Fixture.disk) /\ length neos = 2%nat.
Proof.
  eexists. split.
  - apply (proj2 (@load_neos_returns_iff Fixture.codecs "neos.csv" Fixture.disk
                    Fixture.disk _)).
    exists "ok". split; [reflexivity |]. split; [| reflexivity].
    repeat constructor.
  - reflexivity.
Defined.

Lemma load_neos_first_bad_row_witness :
  @load_neos Fixture.codecs "bad.csv" Fixture.disk = (Raise ValueError, Fixture.disk).
Proof.
  apply (@load_neos_first_bad_row Fixture.codecs "bad.csv" "bad" Fixture.disk
           [row_of_cells (Sample.eros_row "N")] [row_of_cells (Sample.eros_row "Y")]
           (row_of_cells Fixture.bad_row) ValueError);
    try reflexivity.
  repeat constructor. eexists. reflexivity.
Defined.

Lemma load_neos_prints_iff_missing_witness :
  stdout (@load_neos Fixture.codecs "nowhere.csv" Fixture.disk).2 = ["File not found"] /\
  (@load_neos Fixture.codecs "neos.csv" Fixture.disk).2 = Fixture.disk.
Proof.
  destruct (@load_neos_prints_iff_missing Fixture.codecs "nowhere.csv" Fixture.disk)
    as [Hmissing _].
  destruct (@load_neos_prints_iff_missing Fixture.codecs "neos.csv" Fixture.disk)
    as [_ Hfound].
  split; [apply Hmissing; reflexivity | apply Hfound; by eexists].
Defined.

(** ** Loading the close approaches *)

Lemma index_cases l s : (exists i, index l s = Return i) \/ index l s = Raise ValueError.
Proof.
  induction l as [|v l IH]; simpl; [by right |].
  destruct (eq_str v s); [left; eauto |].
  destruct IH as [[i ->] | ->]; [left; eauto | by right].
Qed.

Lemma index_Return_elem l s i : index l s = Return i -> VStr s ∈ l.
Proof.
  intros Hi. apply index_Return in Hi as [Hat _].
  apply list_elem_of_lookup. eauto.
Qed.

Lemma list_getitem_cases item i :
  (exists v, item !! i = Some v /\ list_getitem item i = Return v) \/
  (item !! i = None /\ list_getitem item i = Raise IndexError).
Proof. unfold list_getitem. destruct (item !! i); [left; eauto | by right]. Qed.

Lemma mapM_Forall2_ext {A A' B} (f : A -> result B) (g : A' -> result B) l l' :
  Forall2 (fun x x' => f x = g x') l l' -> mapM f l = mapM g l'.
Proof.
  induction 1 as [|x x' l l' Hx _ IH]; [reflexivity |].
  cbn. rewrite Hx. destruct (g x'); cbn; [by rewrite IH | reflexivity].
Qed.

Section LoadApproachesMore.
Context `{Helpers, Codecs}.

Lemma CloseApproach_init_neo info a :
  CloseApproach.__init__ info = Return a -> CloseApproach.neo a = None.
Proof.
  unfold CloseApproach.__init__. destruct (info !! "self"); [discriminate |].
  intros Hr. returned Hr. by injection Hr as <-.
Qed.

Lemma approach_of_item_neo di ti dsi vi item a :
  approach_of_item di ti dsi vi item = Return a -> CloseApproach.neo a = None.
Proof.
  unfold approach_of_item. intros Hr. returned Hr. by eapply CloseApproach_init_neo.
Qed.

(** With the file in place and decoded, what the rest of the body gives is
    the outcome, unless it is the exception the [except] clause catches. *)
Lemma load_approaches_opened path content w doc r :
  files w !! path = Some content -> json_load content = Return doc ->
  (destinationIndex ← index (fields doc) "des";
   timeIndex ← index (fields doc) "cd";
   distanceIndex ← index (fields doc) "dist";
   velocityIndex ← index (fields doc) "v_rel";
   output ← mapM (approach_of_item destinationIndex timeIndex distanceIndex velocityIndex)
                  (data doc);
   Return (Some output)) = r ->
  (forall p, r <> Raise (FileNotFoundError p)) ->
  load_approaches path w = (r, w).
Proof.
  intros Hfile Hjson Hbody Hr. unfold load_approaches, open_r. rewrite Hfile.
  cbn -[index mapM]. rewrite Hjson. cbn -[index mapM]. rewrite Hbody.
  destruct r as [out|e]; [reflexivity |].
  destruct e; try reflexivity. by destruct (Hr path0).
Qed.

(** X8: a document that lacks one of the columns "des", "cd", "dist" and
    "v_rel" is not loaded: [ValueError] reaches the caller, no row is
    looked at and nothing is printed. *)
Theorem load_approaches_missing_column (path content name : string) (w : World)
    (doc : cad) :
  files w !! path = Some content -> json_load content = Return doc ->
  name ∈ ["des"; "cd"; "dist"; "v_rel"] -> VStr name ∉ fields doc ->
  load_approaches path w = (Raise ValueError, w).
Proof.
  intros Hfile Hjson Hname Hmissing.
  eapply load_approaches_opened; [exact Hfile | exact Hjson | | discriminate].
  destruct (index_cases (fields doc) "des") as [[di Hdi] | ->]; [| reflexivity].
  destruct (index_cases (fields doc) "cd") as [[ti Hti] | Hti];
    [| by rewrite Hdi, Hti].
  destruct (index_cases (fields doc) "dist") as [[dsi Hdsi] | Hdsi];
    [| by rewrite Hdi, Hti, Hdsi].
  destruct (index_cases (fields doc) "v_rel") as [[vi Hvi] | Hvi];
    [| by rewrite Hdi, Hti, Hdsi, Hvi].
  exfalso. apply Hmissing.
  repeat (apply elem_of_cons in Hname as [-> | Hname];
          [eapply index_Return_elem; eassumption |]).
  by apply elem_of_nil in Hname.
Qed.

(** X9: a data row that has no cell at one of the four positions stops the
    load with [IndexError], also after rows that were converted. *)
Theorem load_approaches_short_row (path content : string) (w : World) (doc : cad)
    (di ti dsi vi pos : nat) (pre post : list (list value)) (item : list value) :
  files w !! path = Some content -> json_load content = Return doc ->
  index (fields doc) "des" = Return di -> index (fields doc) "cd" = Return ti ->
  index (fields doc) "dist" = Return dsi -> index (fields doc) "v_rel" = Return vi ->
  data doc = (pre ++ item :: post)%list ->
  Forall (fun it => exists a, approach_of_item di ti dsi vi it = Return a) pre ->
  pos ∈ [di; ti; dsi; vi] -> item !! pos = None ->
  load_approaches path w = (Raise IndexError, w).
Proof.
  intros Hfile Hjson Hdi Hti Hdsi Hvi Hdata Hpre Hpos Hnone.
  eapply load_approaches_opened; [exact Hfile | exact Hjson | | discriminate].
  rewrite Hdi, Hti, Hdsi, Hvi, Hdata. cbn -[mapM].
  erewrite mapM_Raise_first; [reflexivity | exact Hpre |].
  unfold approach_of_item.
  destruct (list_getitem_cases item di) as [(v1 & H1 & ->) | [_ ->]]; [| reflexivity].
  destruct (list_getitem_cases item ti) as [(v2 & H2 & ->) | [_ ->]]; [| reflexivity].
  destruct (list_getitem_cases item dsi) as [(v3 & H3 & ->) | [_ ->]]; [| reflexivity].
  destruct (list_getitem_cases item vi) as [(v4 & H4 & ->) | [_ ->]]; [| reflexivity].
  exfalso.
  repeat (apply elem_of_cons in Hpos as [-> | Hpos]; [congruence |]).
  by apply elem_of_nil in Hpos.
Qed.

(** A returned collection comes from a file that was found and decoded,
    with the four columns found and every row converted. *)
Lemma load_approaches_Return_inv path w w' approaches :
  load_approaches path w = (Return (Some approaches), w') ->
  w' = w /\
  exists content doc di ti dsi vi,
    files w !! path = Some content /\ json_load content = Return doc /\
    index (fields doc) "des" = Return di /\ index (fields doc) "cd" = Return ti /\
    index (fields doc) "dist" = Return dsi /\ index (fields doc) "v_rel" = Return vi /\
    Forall2 (fun item a => approach_of_item di ti dsi vi item = Return a)
            (data doc) approaches.
Proof.
  unfold load_approaches, open_r.
  destruct (files w !! path) as [content|] eqn:Hfile; [| discriminate].
  cbn -[index mapM].
  destruct (json_load content) as [doc|e] eqn:Hjson; cbn -[index mapM];
    [| destruct e; discriminate].
  destruct (index (fields doc) "des") as [di|e] eqn:Hdi; cbn -[index mapM];
    [| destruct e; discriminate].
  destruct (index (fields doc) "cd") as [ti|e] eqn:Hti; cbn -[index mapM];
    [| destruct e; discriminate].
  destruct (index (fields doc) "dist") as [dsi|e] eqn:Hdsi; cbn -[index mapM];
    [| destruct e; discriminate].
  destruct (index (fields doc) "v_rel") as [vi|e] eqn:Hvi; cbn -[index mapM];
    [| destruct e; discriminate].
  destruct (mapM (approach_of_item di ti dsi vi) (data doc)) as [out|e] eqn:Hm;
    cbn; [| destruct e; discriminate].
  intros [= <- <-]. split; [reflexivity |].
  exists content, doc, di, ti, dsi, vi. apply mapM_Return_inv in Hm. by repeat split.
Qed.

Lemma converted_unlinked di ti dsi vi items approaches :
  Forall2 (fun item a => approach_of_item di ti dsi vi item = Return a) items approaches ->
  Forall (fun a => CloseApproach.neo a = None) approaches.
Proof.
  induction 1 as [|item a items approaches Ha _ IH]; constructor; [| exact IH].
  by eapply approach_of_item_neo.
Qed.

(** X10: a collection [load_approaches] returns has one approach per data
    row of the document, every one of them still without its object, and
    the call has printed nothing. *)
Theorem load_approaches_returns_unlinked (path : string) (w w' : World)
    (approaches : list CloseApproach.t) :
  load_approaches path w = (Return (Some approaches), w') ->
  w' = w /\
  exists content doc,
    files w !! path = Some content /\ json_load content = Return doc /\
    length approaches = length (data doc) /\
    Forall (fun a => CloseApproach.neo a = None) approaches.
Proof.
  intros Hload. apply load_approaches_Return_inv in Hload
    as (-> & content & doc & di & ti & dsi & vi & Hfile & Hjson & _ & _ & _ & _ & Hall).
  split; [reflexivity |]. exists content, doc.
  split; [exact Hfile |]. split; [exact Hjson |]. split.
  - symmetry. by eapply Forall2_length.
  - by eapply converted_unlinked.
Qed.

(** X11: a failure to decode the document, other than the exception the
    [except] clause catches, reaches the caller and nothing is printed. *)
Theorem load_approaches_decode_error (path content : string) (w : World) (e : exn) :
  files w !! path = Some content -> json_load content = Raise e ->
  (forall p, e <> FileNotFoundError p) ->
  load_approaches path w = (Raise e, w).
Proof.
  intros Hfile Hjson He. unfold load_approaches, open_r. rewrite Hfile.
  cbn -[index mapM]. rewrite Hjson. cbn.
  destruct e; try reflexivity. by destruct (He path0).
Qed.

(** X12: the approaches depend on the document only through the cells
    under the four column names: two documents whose rows agree there,
    whatever the order of their columns and whatever other columns they
    have, load alike. *)
Theorem load_approaches_by_name (path1 path2 content1 content2 : string) (w : World)
    (doc1 doc2 : cad) (d1 t1 ds1 v1 d2 t2 ds2 v2 : nat) :
  files w !! path1 = Some content1 -> json_load content1 = Return doc1 ->
  files w !! path2 = Some content2 -> json_load content2 = Return doc2 ->
  index (fields doc1) "des" = Return d1 -> index (fields doc2) "des" = Return d2 ->
  index (fields doc1) "cd" = Return t1 -> index (fields doc2) "cd" = Return t2 ->
  index (fields doc1) "dist" = Return ds1 -> index (fields doc2) "dist" = Return ds2 ->
  index (fields doc1) "v_rel" = Return v1 -> index (fields doc2) "v_rel" = Return v2 ->
  Forall2 (fun item1 item2 =>
             item1 !! d1 = item2 !! d2 /\ item1 !! t1 = item2 !! t2 /\
             item1 !! ds1 = item2 !! ds2 /\ item1 !! v1 = item2 !! v2)
          (data doc1) (data doc2) ->
  load_approaches path1 w = load_approaches path2 w.
Proof.
  intros Hf1 Hj1 Hf2 Hj2 Hd1 Hd2 Ht1 Ht2 Hds1 Hds2 Hv1 Hv2 Hrows.
  unfold load_approaches, open_r. rewrite Hf1, Hf2. cbn -[index mapM].
  rewrite Hj1, Hj2. cbn -[index mapM].
  rewrite Hd1, Hd2, Ht1, Ht2, Hds1, Hds2, Hv1, Hv2. cbn -[mapM].
  rewrite (mapM_Forall2_ext (approach_of_item d1 t1 ds1 v1) (approach_of_item d2 t2 ds2 v2)
             (data doc1) (data doc2)); [reflexivity |].
  eapply Forall2_impl; [exact Hrows |].
  intros item1 item2 (Ed & Et & Eds & Ev).
  unfold approach_of_item, list_getitem. by rewrite Ed, Et, Eds, Ev.
Qed.

End LoadApproachesMore.

Lemma load_approaches_missing_column_witness :
  @load_approaches Sample.helpers Fixture.codecs "no_dist.json" Fixture.disk
  = (Raise ValueError, Fixture.disk).
Proof.
  apply (@load_approaches_missing_column Sample.helpers Fixture.codecs
           "no_dist.json" "no_dist" "dist" Fixture.disk Fixture.no_dist);
    try reflexivity.
  - set_solver.
  - intros Hin. repeat (apply elem_of_cons in Hin as [[=] | Hin]).
    by apply elem_of_nil in Hin.
Defined.

Lemma load_approaches_short_row_witness :
  @load_approaches Sample.helpers Fixture.codecs "short_row.json" Fixture.disk
  = (Raise IndexError, Fixture.disk).
Proof.
  apply (@load_approaches_short_row Sample.helpers Fixture.codecs
           "short_row.json" "short_row" Fixture.disk Fixture.short_row 0 1 2 3 3
           [] [] [VStr "433"; VStr "1900-Jan-01 00:00"; VStr "0.0921"]);
    try reflexivity.
  - constructor.
  - set_solver.
Defined.

Lemma load_approaches_returns_unlinked_witness :
  Fixture.disk = Fixture.disk /\
  exists content doc,
    files Fixture.disk !! "cad.json" = Some content /\
    @json_load Fixture.codecs content = Return doc /\
    length [@CloseApproach.Build_t Sample.helpers (VStr "433") (Some "1900-Jan-01 00:00")
              0.0921%float 5.58%float None] = length (data doc) /\
    Forall (fun a => CloseApproach.neo a = None)
      [@CloseApproach.Build_t Sample.helpers (VStr "433") (Some "1900-Jan-01 00:00")
         0.0921%float 5.58%float None].
Proof.
  apply (@load_approaches_returns_unlinked Sample.helpers Fixture.codecs "cad.json"
           Fixture.disk Fixture.disk).
  reflexivity.
Defined.

Lemma load_approaches_decode_error_witness :
  @load_approaches Sample.helpers Fixture.codecs "empty.json" Fixture.disk
  = (Raise ValueError, Fixture.disk).
Proof.
  apply (@load_approaches_decode_error Sample.helpers Fixture.codecs
           "empty.json" "" Fixture.disk ValueError); try reflexivity.
  discriminate.
Defined.

Lemma load_approaches_by_name_witness :
  @load_approaches Sample.helpers Fixture.codecs "cad.json" Fixture.disk
  = @load_approaches Sample.helpers Fixture.codecs "reordered.json" Fixture.disk.
Proof.
  apply (@load_approaches_by_name Sample.helpers Fixture.codecs
           "cad.json" "reordered.json" "eros" "reordered" Fixture.disk
           Sample.eros_approach Fixture.reordered 0 1 2 3 3 4 2 0);
    try reflexivity.
  repeat constructor.
Defined.

(** ** Writing the CSV file *)

Section WriteCsv.
Context `{Helpers, Codecs}.

Lemma writable_rows results :
  Forall writable results ->
  exists rows,
    Forall2 (fun a cells => exists ts o,
               CloseApproach.time_str a = Return ts /\ CloseApproach.neo a = Some o /\
               cells = csv_cells ts a o) results rows.
Proof.
  induction 1 as [|a results [[o Ho] [ts Hts]] _ [rows IH]].
  - exists []. constructor.
  - exists (csv_cells ts a o :: rows). constructor; eauto.
Qed.

(** X13: for linked approaches whose times [datetime_to_str] formats,
    [write_to_csv] leaves in the file the header line followed by one line
    per approach, in the order of the input, with the cells formatted time,
    distance, velocity, designation, name, diameter and hazardous flag. *)
Theorem write_to_csv_rows (results : list CloseApproach.t) (filename : string)
    (w : World) :
  Forall (fun a => exists ts o, formats_linked a ts o) results ->
  exists rows,
    Forall2 (fun a cells => exists ts o, formats_linked a ts o /\ cells = csv_cells ts a o)
            results rows /\
    write_to_csv results filename w = (Return (), written filename (csv_text rows) w).
Proof.
  intros Hall.
  assert (Hrows : exists rows,
            Forall2 (fun a cells => exists ts o,
                       formats_linked a ts o /\ cells = csv_cells ts a o) results rows).
  { induction Hall as [|a results (ts & o & Ha) _ [rows IH]].
    - exists []. constructor.
    - exists (csv_cells ts a o :: rows). constructor; eauto. }
  destruct Hrows as [rows Hrows]. exists rows. split; [exact Hrows |].
  unfold write_to_csv. rewrite <- (app_nil_r results).
  rewrite (write_rows_prefix results [] rows); [reflexivity |].
  eapply Forall2_impl; [exact Hrows |].
  intros a cells (ts & o & [Hts Ho] & ->). by exists ts, o.
Qed.

(** X14: when the first approach that is not linked comes after linked
    ones, [write_to_csv] raises but leaves the file behind, holding the
    header and the lines of the approaches before it. *)
Theorem write_to_csv_partial (pre post : list CloseApproach.t) (a : CloseApproach.t)
    (ts filename : string) (w : World) :
  Forall writable pre ->
  CloseApproach.neo a = None -> CloseApproach.time_str a = Return ts ->
  exists rows,
    Forall2 (fun b cells => exists ts o,
               CloseApproach.time_str b = Return ts /\ CloseApproach.neo b = Some o /\
               cells = csv_cells ts b o) pre rows /\
    write_to_csv (pre ++ a :: post) filename w
    = (Raise (AttributeError "designation"), written filename (csv_text rows) w).
Proof.
  intros Hpre Hneo Hts. destruct (writable_rows pre Hpre) as [rows Hrows].
  exists rows. split; [exact Hrows |].
  unfold write_to_csv. rewrite (write_rows_prefix pre (a :: post) rows _ Hrows).
  cbn. unfold csv_rowdict, CloseApproach.neo_attr. by rewrite Hts, Hneo.
Qed.

(** X15: whatever the approaches, and whether it returns or raises,
    [write_to_csv] leaves a file that begins with the header line; with no
    approaches the file is the header line alone. *)
Theorem write_to_csv_header (results : list CloseApproach.t) (filename : string)
    (w : World) :
  (exists rest,
     files (write_to_csv results filename w).2 !! filename
     = Some (csv_writerow (map VStr fieldnames) +:+ rest)) /\
  write_to_csv [] filename w
  = (Return (), written filename (csv_writerow (map VStr fieldnames)) w).
Proof.
  split; [| reflexivity].
  unfold write_to_csv.
  destruct (write_rows_extends results (csv_writerow (map VStr fieldnames))) as [rest Hrest].
  destruct (write_rows results (csv_writerow (map VStr fieldnames))) as [r out].
  cbn in *. exists rest. rewrite <- Hrest. apply lookup_insert_eq.
Qed.

End WriteCsv.

Lemma write_to_csv_rows_witness :
  @write_to_csv Sample.helpers Render.codecs [Render.first; Render.second] "out.csv"
    Sample.empty_world
  = (Return (),
     written "out.csv"
       ("datetime_utc,distance_au,velocity_km_s,designation,name,diameter_km," +:+
        "potentially_hazardous,;1900-01-01 00:00,1p-3,11p-1,433,Eros,67p-2,False,;" +:+
        "2029-04-13 21:46,1p-2,15p-1,99942,,nan,True,;")
       Sample.empty_world).
Proof.
  destruct (@write_to_csv_rows Sample.helpers Render.codecs [Render.first; Render.second]
              "out.csv" Sample.empty_world) as (rows & Hrows & ->).
  - repeat constructor.
    + exists "1900-01-01 00:00", Render.eros. by split.
    + exists "2029-04-13 21:46", Render.apophis. by split.
  - apply Forall2_cons_inv_l in Hrows as (r1 & rest & (ts1 & o1 & [Hts1 Ho1] & ->) & Hrows & ->).
    apply Forall2_cons_inv_l in Hrows as (r2 & rest' & (ts2 & o2 & [Hts2 Ho2] & ->) & Hrows & ->).
    apply Forall2_nil_inv_l in Hrows as ->.
    injection Hts1 as <-. injection Ho1 as <-. injection Hts2 as <-. injection Ho2 as <-.
    reflexivity.
Defined.

Lemma write_to_csv_partial_witness :
  exists rows,
    Forall2 (fun b cells => exists ts o,
               CloseApproach.time_str b = Return ts /\ CloseApproach.neo b = Some o /\
               cells = csv_cells ts b o) [Sample.linked] rows /\
    @write_to_csv Sample.helpers Fixture.codecs
      ([Sample.linked] ++ Sample.unlinked :: [Sample.linked]) "out.csv" Fixture.disk
    = (Raise (AttributeError "designation"),
       written "out.csv" (@csv_text Fixture.codecs rows) Fixture.disk).
Proof.
  apply (@write_to_csv_partial Sample.helpers Fixture.codecs [Sample.linked]
           [Sample.linked] Sample.unlinked "1900-01-01 00:00" "out.csv" Fixture.disk);
    try reflexivity.
  repeat constructor; simpl; eauto.
Defined.

(** ** Writing the JSON document, and both writers *)

Section WriteMore.
Context `{Helpers, Codecs}.

Lemma result_dict_unlinked a :
  CloseApproach.neo a = None -> exists e, result_dict a = Raise e.
Proof.
  intros Hneo. unfold result_dict, CloseApproach.serialize, CloseApproach.neo_attr.
  rewrite Hneo. destruct (CloseApproach.time_str a); cbn; eauto.
Qed.

Lemma collect_unlinked a results output :
  CloseApproach.neo a = None -> a ∈ results ->
  exists e, collect results output = Raise e.
Proof.
  intros Hneo Hin. revert output.
  induction results as [|b results IH]; intros output; [by apply elem_of_nil in Hin |].
  cbn. destruct (result_dict b) as [d|e] eqn:Hb; cbn; [| eauto].
  apply elem_of_cons in Hin as [<- | Hin]; [| by apply IH].
  destruct (result_dict_unlinked a Hneo) as [e He]. congruence.
Qed.

(** X16: when one of the approaches is not linked, [write_to_json] raises
    and writes nothing at all: the files are as they were, also when linked
    approaches come first. *)
Theorem write_to_json_unlinked (results : list CloseApproach.t) (a : CloseApproach.t)
    (filename : string) (w : World) :
  a ∈ results -> CloseApproach.neo a = None ->
  exists e, write_to_json results filename w = (Raise e, w).
Proof.
  intros Hin Hneo. unfold write_to_json.
  destruct (collect_unlinked a results [] Hneo Hin) as [e ->]. eauto.
Qed.

(** X17: the approaches [load_approaches] returns cannot be written before
    they are linked: unless there are none, both writers raise on them, and
    [write_to_json] leaves the files untouched. *)
Theorem loaded_approaches_not_writable (path filename : string) (w w' w0 : World)
    (approaches : list CloseApproach.t) :
  load_approaches path w = (Return (Some approaches), w') -> approaches <> [] ->
  (exists e, write_to_json approaches filename w0 = (Raise e, w0)) /\
  (exists e w1, write_to_csv approaches filename w0 = (Raise e, w1)).
Proof.
  intros Hload Hne.
  apply load_approaches_Return_inv in Hload
    as (_ & content & doc & di & ti & dsi & vi & _ & _ & _ & _ & _ & _ & Hall).
  apply converted_unlinked in Hall as Hneo.
  destruct approaches as [|a approaches]; [done |].
  assert (Ha : CloseApproach.neo a = None) by (by inversion Hneo).
  assert (Hin : a ∈ a :: approaches) by (apply elem_of_cons; by left).
  split.
  - unfold write_to_json. destruct (collect_unlinked a _ [] Ha Hin) as [e ->]. eauto.
  - unfold write_to_csv.
    destruct (write_rows_unlinked a (a :: approaches) (csv_writerow (map VStr fieldnames))
                Ha Hin) as (e & out' & -> & _).
    eauto.
Qed.

(** X18: the writers touch one file: every other file and the standard
    output are as before, whether the call returns or raises. *)
Theorem writers_touch_one_file (results : list CloseApproach.t) (filename other : string)
    (w : World) :
  other <> filename ->
  files (write_to_csv results filename w).2 !! other = files w !! other /\
  stdout (write_to_csv results filename w).2 = stdout w /\
  files (write_to_json results filename w).2 !! other = files w !! other /\
  stdout (write_to_json results filename w).2 = stdout w.
Proof.
  intros Hother. unfold write_to_csv, write_to_json.
  destruct (write_rows results (csv_writerow (map VStr fieldnames))) as [r out].
  destruct (collect results []) as [output|e]; cbn;
    rewrite ?lookup_insert_ne by done; done.
Qed.

End WriteMore.

Lemma write_to_json_unlinked_witness :
  exists e, @write_to_json Sample.helpers Fixture.codecs
              [Sample.linked; Sample.unlinked] "out.json" Fixture.disk
            = (Raise e, Fixture.disk).
Proof.
  apply (@write_to_json_unlinked Sample.helpers Fixture.codecs
           [Sample.linked; Sample.unlinked] Sample.unlinked "out.json" Fixture.disk).
  - set_solver.
  - reflexivity.
Defined.

Lemma loaded_approaches_not_writable_witness :
  (exists e, @write_to_json Sample.helpers Fixture.codecs
               [@CloseApproach.Build_t Sample.helpers (VStr "433")
                  (Some "1900-Jan-01 00:00") 0.0921%float 5.58%float None]
               "out.json" Fixture.disk = (Raise e, Fixture.disk)) /\
  (exists e w1, @write_to_csv Sample.helpers Fixture.codecs
               [@CloseApproach.Build_t Sample.helpers (VStr "433")
                  (Some "1900-Jan-01 00:00") 0.0921%float 5.58%float None]
               "out.json" Fixture.disk = (Raise e, w1)).
Proof.
  apply (@loaded_approaches_not_writable Sample.helpers Fixture.codecs "cad.json"
           "out.json" Fixture.disk Fixture.disk Fixture.disk).
  - reflexivity.
  - discriminate.
Defined.

Lemma writers_touch_one_file_witness :
  files (@write_to_csv Sample.helpers Fixture.codecs [Sample.linked] "out.csv"
           Fixture.disk).2 !! "neos.csv" = files Fixture.disk !! "neos.csv" /\
  stdout (@write_to_csv Sample.helpers Fixture.codecs [Sample.linked] "out.csv"
            Fixture.disk).2 = stdout Fixture.disk /\
  files (@write_to_json Sample.helpers Fixture.codecs [Sample.linked] "out.csv"
           Fixture.disk).2 !! "neos.csv" = files Fixture.disk !! "neos.csv" /\
  stdout (@write_to_json Sample.helpers Fixture.codecs [Sample.linked] "out.csv"
            Fixture.disk).2 = stdout Fixture.disk.
Proof.
  apply (@writers_touch_one_file Sample.helpers Fixture.codecs [Sample.linked]
           "out.csv" "neos.csv" Fixture.disk).
  discriminate.
Defined.
